(** * metadata-crawler: a model of [main.py] and its properties

    [main.py] is one asyncio program: a producer ([main]) fills
    [input_queue] from a remote work source, 200 [worker] tasks resolve the
    token URI of each item and push the item on [output_queue], and one
    [save_worker] task posts the results back in batches.

    Conventions of the model.
    - A Python [str] is a Rocq [string], one [ascii] per character: the model
      carries the code points below 256.  [int] is [Z], [None] is [None].
    - [queue.Queue] is a list whose head is the next item [get_nowait]
      returns; [put]/[put_nowait] append at the end.
    - Calls that leave the program (the [datauri] package, [bytes.decode],
      aiohttp) are given by an environment record: their results are inputs
      of the model.
    - A coroutine is cut at its [await]s: the code between two suspension
      points runs without interleaving (one asyncio thread), what the other
      tasks did during a suspension is a parameter. *)

From Stdlib Require Import ZArith List Ascii String Bool Lia DecimalString.
From stdpp Require Import base option list strings gmap.

Local Open Scope string_scope.
Local Open Scope list_scope.
Local Open Scope Z_scope.

(** * The program *)

(** ** Strings *)

Module Str.

(** [s[i:]] for [0 <= i]: past the end the slice is empty. *)
Fixpoint slice_from (i : nat) (s : string) : string :=
  match i, s with
  | O, _ => s
  | S i', String _ t => slice_from i' t
  | S _, EmptyString => EmptyString
  end.

(** [s[:i]] for [0 <= i]. *)
Fixpoint slice_to (i : nat) (s : string) : string :=
  match i, s with
  | O, _ => EmptyString
  | S i', String c t => String c (slice_to i' t)
  | S _, EmptyString => EmptyString
  end.

(** [s.startswith(p)] *)
Definition startswith (s p : string) : bool := String.prefix p s.

Definition code (c : ascii) : N := N_of_ascii c.

Definition between (lo hi : ascii) (c : ascii) : bool :=
  ((code lo <=? code c) && (code c <=? code hi))%N.

(** [str.lower] on one character: the upper-case letters below 256 are
    A-Z and U+00C0..U+00DE without the multiplication sign U+00D7; each
    has its lower-case form 32 places higher. *)
Definition lower_char (c : ascii) : ascii :=
  if between "A" "Z" c
     || (((192 <=? code c) && (code c <=? 222))%N && negb (code c =? 215)%N)
  then ascii_of_N (code c + 32)
  else c.

Fixpoint lower (s : string) : string :=
  match s with
  | EmptyString => EmptyString
  | String c t => String (lower_char c) (lower t)
  end.

(** Python truthiness of a [str]: only the empty string is false. *)
Definition truthy (s : string) : bool :=
  match s with EmptyString => false | String _ _ => true end.

End Str.

(** ** The regular expression of [replace_ipfs_gateway]

    A backtracking matcher in continuation-passing style, for the fragment of
    [re] the pattern uses.  [rmatch r s k] tries [r] at the start of [s] and
    hands each way of matching it, in [re]'s order of preference, to [k]. *)

Module Re.

Inductive regex : Type :=
| Lit (c : ascii)                   (* one literal character *)
| Class (p : ascii -> bool)         (* [...] *)
| Cat (r1 r2 : regex)               (* r1 r2 *)
| Alt (r1 r2 : regex)               (* r1|r2 *)
| Times (n : nat) (r : regex)       (* r{n} *)
| Dollar.                           (* $ *)

(** Without [re.MULTILINE], [$] matches at the end of the string and just
    before a newline that is its last character. *)
Definition at_dollar (s : string) : bool :=
  match s with
  | EmptyString => true
  | String c EmptyString => Ascii.eqb c "010"
  | _ => false
  end.

Fixpoint times {A : Type} (n : nat) (m : A -> (A -> bool) -> bool)
    (s : A) (k : A -> bool) : bool :=
  match n with
  | O => k s
  | S n' => m s (fun s' => times n' m s' k)
  end.

Fixpoint rmatch (r : regex) (s : string) (k : string -> bool) : bool :=
  match r with
  | Lit c =>
      match s with
      | String d t => if Ascii.eqb c d then k t else false
      | EmptyString => false
      end
  | Class p =>
      match s with
      | String d t => if p d then k t else false
      | EmptyString => false
      end
  | Cat r1 r2 => rmatch r1 s (fun s' => rmatch r2 s' k)
  | Alt r1 r2 => rmatch r1 s k || rmatch r2 s k
  | Times n r' => times n (rmatch r') s k
  | Dollar => at_dollar s && k s
  end.

(** [r] matches at the start of [s]. *)
Definition match_here (r : regex) (s : string) : bool :=
  rmatch r s (fun _ => true).

(** [re.search(r, s)]: the match that starts leftmost, tried at every
    position from [i] up to and including the end; [Some start] stands for
    the match object, of which the program reads [start()] only. *)
Fixpoint search_from (r : regex) (i : nat) (s : string) : option nat :=
  if match_here r s then Some i
  else match s with
       | EmptyString => None
       | String _ t => search_from r (S i) t
       end.

Definition search (r : regex) (s : string) : option nat := search_from r 0 s.

End Re.

(** [[a-zA-Z0-9]] *)
Definition alnum (c : ascii) : bool :=
  Str.between "a" "z" c || Str.between "A" "Z" c || Str.between "0" "9" c.

(** [[a-z0-9]] *)
Definition lower_alnum (c : ascii) : bool :=
  Str.between "a" "z" c || Str.between "0" "9" c.

(** ["\/([a-zA-Z0-9]{46}|[a-z0-9]{59})(\/|$){1}"] *)
Definition cid_pattern : Re.regex :=
  Re.Cat (Re.Lit "/")
    (Re.Cat (Re.Alt (Re.Times 46 (Re.Class alnum)) (Re.Times 59 (Re.Class lower_alnum)))
            (Re.Times 1 (Re.Alt (Re.Lit "/") Re.Dollar))).

(** [replace_ipfs_gateway], with the module constant [IPFS_GATEWAY] as its
    first argument. *)
Definition replace_ipfs_gateway (IPFS_GATEWAY token_uri : string) : string :=
  match Re.search cid_pattern token_uri with
  | None => token_uri
  | Some start => IPFS_GATEWAY +:+ Str.slice_from start token_uri
  end.

(** ** JSON values and [json.dumps] *)

#[warnings="-register-all"]
Inductive json : Type :=
| JNull
| JBool (b : bool)
| JInt (n : Z)
| JFloat (repr : string)            (* a float, carried by the text written for it *)
| JStr (s : string)
| JList (l : list json)
| JDict (d : list (string * json)). (* keys in insertion order *)

Module Dumps.

Definition dquote : string := String "034" "".
Definition backslash : string := String "092" "".

Definition hex_digit (n : N) : ascii :=
  if (n <? 10)%N then ascii_of_N (48 + n) else ascii_of_N (87 + n).

(** ['\\u{0:04x}'.format(n)] for [n < 256] *)
Definition u_escape (c : ascii) : string :=
  backslash +:+ "u00"
    +:+ String (hex_digit (Str.code c / 16)) (String (hex_digit (Str.code c mod 16)) "").

(** One character under [ensure_ascii=True]: [ESCAPE_DCT] for the quote,
    the backslash and the five named control characters, the character
    itself from space to tilde, a [\u] escape for the rest. *)
Definition escape_char (c : ascii) : string :=
  if Ascii.eqb c "034" then backslash +:+ dquote
  else if Ascii.eqb c "092" then backslash +:+ backslash
  else if Ascii.eqb c "010" then backslash +:+ "n"
  else if Ascii.eqb c "013" then backslash +:+ "r"
  else if Ascii.eqb c "009" then backslash +:+ "t"
  else if Ascii.eqb c "008" then backslash +:+ "b"
  else if Ascii.eqb c "012" then backslash +:+ "f"
  else if Str.between " " "~" c then String c ""
  else u_escape c.

Fixpoint escape (s : string) : string :=
  match s with
  | EmptyString => EmptyString
  | String c t => escape_char c +:+ escape t
  end.

Definition quoted (s : string) : string := dquote +:+ escape s +:+ dquote.

(** [int.__repr__] *)
Definition int_repr (n : Z) : string := NilZero.string_of_int (Z.to_int n).

(** [json.dumps(j)] with the default separators [", "] and [": "]. *)
Fixpoint dumps (j : json) : string :=
  match j with
  | JNull => "null"
  | JBool true => "true"
  | JBool false => "false"
  | JInt n => int_repr n
  | JFloat repr => repr
  | JStr s => quoted s
  | JList l =>
      "[" +:+ (fix items (l : list json) : string :=
                 match l with
                 | [] => ""
                 | x :: t =>
                     match t with
                     | [] => dumps x
                     | _ :: _ => dumps x +:+ ", " +:+ items t
                     end
                 end) l +:+ "]"
  | JDict d =>
      "{" +:+ (fix pairs (d : list (string * json)) : string :=
                 match d with
                 | [] => ""
                 | (k, v) :: t =>
                     match t with
                     | [] => quoted k +:+ ": " +:+ dumps v
                     | _ :: _ => quoted k +:+ ": " +:+ dumps v +:+ ", " +:+ pairs t
                     end
                 end) d +:+ "}"
  end.

(** The text [{"error": "<msg>"}], written out. *)
Definition error_text (msg : string) : string :=
  "{" +:+ dquote +:+ "error" +:+ dquote +:+ ": " +:+ dquote +:+ msg +:+ dquote +:+ "}".

End Dumps.

(** ** Status codes *)

Definition STATUS_CODE_NO_RESULT : Z := 0.
Definition STATUS_CODE_NOT_PARSABLE : Z := 1.
Definition STATUS_CODE_INVALID_URI : Z := 2.
Definition STATUS_CODE_SERVICE_NOT_FOUND : Z := 3.
Definition STATUS_CODE_INVALID_IPFS : Z := 4.
Definition STATUS_CODE_UNKNOWN_PROTOCOL : Z := 5.
Definition STATUS_CODE_NO_JSON : Z := 1.

(** ** [WorkloadItem] *)

Record WorkloadItem : Type := mkItem {
  contract_hash : string;
  token_id : string;
  token_uri : string;
  response_code : option Z;
  metadata : option string
}.

(** [WorkloadItem.__init__] *)
Definition new_item (contract_hash token_id token_uri : string) : WorkloadItem :=
  mkItem contract_hash token_id token_uri None None.

(** [WorkloadItem.set_metadata]; the worker can pass [None] for either. *)
Definition set_metadata (item : WorkloadItem) (response_code : option Z)
    (metadata : option string) : WorkloadItem :=
  mkItem (contract_hash item) (token_id item) (token_uri item) response_code metadata.

(** ** Exceptions and the outside world *)

(** The exception classes the program's handlers tell apart; [OtherException]
    is any other subclass of [Exception]. *)
Inductive exn : Type :=
| JSONDecodeError
| ContentTypeError
| ClientConnectorError
| InvalidURL
| RuntimeError (msg : string)
| ValueError
| TypeError
| OtherException.

Inductive result (A : Type) : Type :=
| Ok (a : A)
| Raise (e : exn).
Arguments Ok {A} a.
Arguments Raise {A} e.

(** What [session.get] hands back: the status line and what
    [await response.json()] does. *)
Record Response : Type := mkResponse {
  status : Z;
  response_json : result json
}.

(** The module constants read from the process environment. *)
Record Config : Type := mkConfig {
  API_KEY : string;
  API_URI : string;
  IPFS_GATEWAY : string;
  MAX_REQUESTS : Z
}.

Record Env : Type := mkEnv {
  constants : Config;
  datauri_parse : string -> result (list Byte.byte);  (* datauri.parse(uri).data *)
  decode_utf8 : list Byte.byte -> result string;      (* content.decode("UTF-8") *)
  session_get : string -> result Response;            (* session.get(uri, headers=HEADER) *)
  session_post : list WorkloadItem -> result unit     (* the POST of save_workload *)
}.

(** What a task does to the world outside the two queues. *)
Inductive event : Type :=
| Get (uri : string)                  (* the GET of [request_metadata] *)
| GetWorkload                         (* [get_workload()] *)
| Persist (items : list WorkloadItem) (* [save_workload(items)] *)
| Sleep (seconds : Z).                (* [asyncio.sleep(seconds)] *)

(** ** Module initialisation

    Lines 20 to 32 of [main.py] run when the module is loaded, before
    [main()] is scheduled: an exception there ends the process.  [int] is the
    built-in conversion of a [str], [environ] is [os.environ]. *)

Section ModuleInit.

Variable int : string -> result Z.

(** Truthiness of what [os.getenv] returns: [None] and the empty string
    are false. *)
Definition is_set (v : option string) : bool :=
  match v with Some s => Str.truthy s | None => false end.

Definition module_init (environ : gmap string string) : result Config :=
  let api_key := environ !! "API_KEY" in
  let api_uri := environ !! "API_URI" in
  let ipfs_gateway := environ !! "IPFS_GATEWAY" in
  let max_requests :=
    match environ !! "MAX_REQUESTS" with
    | Some s => if Str.truthy s then int s else Ok 200
    | None => Ok 200
    end in
  match max_requests with
  | Raise e => Raise e
  | Ok max_requests =>
      if negb (is_set api_uri) then Raise (RuntimeError "No API_URI set!")
      else if negb (is_set api_key) then Raise (RuntimeError "No API_KEY set!")
      else if negb (is_set ipfs_gateway) then Raise (RuntimeError "No IPFS_GATEWAY set!")
      else Ok (mkConfig (default "" api_key) (default "" api_uri)
                        (default "" ipfs_gateway) max_requests)
  end.

End ModuleInit.

(** ** The resolver *)

(** [try_get_data]: the bare [except] turns every failure into [None]. *)
Definition try_get_data (E : Env) (token_uri : string) : option string :=
  match datauri_parse E token_uri with
  | Ok content =>
      match decode_utf8 E content with
      | Ok text => Some text
      | Raise _ => None
      end
  | Raise _ => None
  end.

Definition error_dict (msg : string) : json := JDict [("error", JStr msg)].

(** [request_metadata]: the pair it returns and the requests it made. *)
Definition request_metadata (E : Env) (token_uri : string)
    : (option Z * option string) * list event :=
  if Str.startswith (Str.lower token_uri) "ipfs://" then
    ((Some STATUS_CODE_INVALID_IPFS, Some (Dumps.dumps (error_dict "invalid ipfs link"))), [])
  else if Str.startswith (Str.lower token_uri) "ar://" then
    ((Some STATUS_CODE_UNKNOWN_PROTOCOL, Some (Dumps.dumps (error_dict "unknown protocol"))), [])
  else
    let outer_try : result (option Z * option string) :=
      match session_get E token_uri with
      | Ok response =>
          match response_json response with
          | Ok body => Ok (Some (status response), Some (Dumps.dumps body))
          | Raise JSONDecodeError =>
              Ok (Some STATUS_CODE_NOT_PARSABLE,
                  Some (Dumps.dumps (error_dict "result is not parsable")))
          | Raise ContentTypeError =>
              Ok (Some STATUS_CODE_NO_JSON,
                  Some (Dumps.dumps (error_dict "result is no json")))
          | Raise e => Raise e
          end
      | Raise e => Raise e
      end in
    (match outer_try with
     | Ok r => r
     | Raise ClientConnectorError =>
         (Some STATUS_CODE_SERVICE_NOT_FOUND,
          Some (Dumps.dumps (error_dict "service not found")))
     | Raise InvalidURL =>
         (Some STATUS_CODE_INVALID_URI, Some (Dumps.dumps (error_dict "invalid URI")))
     | Raise _ => (None, None)
     end, [Get token_uri]).

(** Truthiness of [Optional[int]] and [Optional[str]] *)
Definition truthy_code (code : option Z) : bool :=
  match code with Some n => negb (n =? 0) | None => false end.

Definition truthy_data (data : option string) : bool :=
  match data with Some s => Str.truthy s | None => false end.

(** The body of the worker's [try] from [token_uri = item.token_uri] to
    [item.set_metadata(code, data)]: the item as it is put on the output
    queue, and the requests made for it. *)
Definition resolve (E : Env) (item : WorkloadItem) : WorkloadItem * list event :=
  let token_uri := token_uri item in
  let data := try_get_data E token_uri in
  if truthy_data data then
    (set_metadata item (Some 200) data, [])
  else
    let token_uri := replace_ipfs_gateway (IPFS_GATEWAY (constants E)) token_uri in
    let '((code, data), evs) := request_metadata E token_uri in
    if negb (truthy_code code) && negb (truthy_data data) then
      (set_metadata item (Some 0) (Some (Dumps.dumps (error_dict "no response"))), evs)
    else
      (set_metadata item code data, evs).

(** ** The two queues and the three loops *)

Record State : Type := mkState {
  input_queue : list WorkloadItem;
  output_queue : list WorkloadItem
}.

Definition qsize (q : list WorkloadItem) : Z := Z.of_nat (List.length q).

(** How an iteration of a loop ends. *)
Inductive status_of_task : Type :=
| Running                 (* back to [while True] *)
| Returned                (* [return] *)
| Died (e : exn).         (* an exception left the coroutine *)

(** One iteration of [worker].  [others] is what the other tasks did to the
    queues while this one waited in [request_metadata]. *)
Definition worker (E : Env) (others : State -> State) (st : State)
    : State * list event * status_of_task :=
  if qsize (input_queue st) =? 0 then (st, [Sleep 1], Running)
  else
    match input_queue st with
    | [] => (st, [], Died OtherException)     (* get_nowait raises queue.Empty *)
    | item :: rest =>
        let '(item', evs) := resolve E item in
        let st' := others (mkState rest (output_queue st)) in
        (mkState (input_queue st') (output_queue st' ++ [item']), evs, Running)
    end.

(** An object of a class with neither [__bool__] nor [__len__] is true. *)
Definition truthy_item (item : WorkloadItem) : bool := true.

(** [save_workload]: one POST with the whole list as its body.  What the
    POST or the reading of its answer raises leaves the coroutine. *)
Definition save_workload (E : Env) (items : list WorkloadItem)
    : result unit * list event :=
  (session_post E items, [Persist items]).

(** The progress line of an item takes [len(item.metadata)] and formats
    [item.response_code] with [3d]: each raises [TypeError] on [None]. *)
Definition prints (item : WorkloadItem) : bool :=
  match metadata item, response_code item with
  | Some _, Some _ => true
  | _, _ => false
  end.

(** One iteration of [save_worker]. *)
Definition save_worker (E : Env) (st : State) : State * list event * status_of_task :=
  let size := Z.min (qsize (output_queue st)) 100 in
  if size =? 0 then (st, [Sleep 5], Running)
  else
    let got := take (Z.to_nat size) (output_queue st) in
    let items := filter (fun item => truthy_item item = true) got in
    let st' := mkState (input_queue st) (drop (Z.to_nat size) (output_queue st)) in
    match items with
    | [] => (st', if size <? 100 then [Sleep 5] else [], Running)
    | _ :: _ =>
        if forallb prints items then
          match save_workload E items with
          | (Ok _, evs) => (st', evs ++ (if size <? 100 then [Sleep 5] else []), Running)
          | (Raise e, evs) => (st', evs, Died e)
          end
        else (st', [], Died TypeError)
    end.

(** One iteration of the loop of [main].  [workload] is what
    [get_workload()] gives this time, [others] what the other tasks did to
    the queues meanwhile. *)
Definition main (workload : result (list WorkloadItem)) (others : State -> State)
    (st : State) : State * list event * status_of_task :=
  if qsize (input_queue st) >? 10000 then (st, [Sleep 1], Running)
  else
    let st1 := others st in
    match workload with
    | Raise e => (st1, [GetWorkload], Died e)
    | Ok [] =>
        if (qsize (output_queue st1) =? 0) && (qsize (input_queue st1) =? 0)
        then (st1, [GetWorkload], Returned)
        else (st1, [GetWorkload; Sleep 1], Running)
    | Ok ((_ :: _) as workload) =>
        (mkState (input_queue st1 ++ workload) (output_queue st1), [GetWorkload], Running)
    end.

(** ** Runs of the loops *)

(** [n] iterations of [save_worker] with nothing else running. *)
Fixpoint run_save_worker (E : Env) (n : nat) (st : State)
    : State * list event * status_of_task :=
  match n with
  | O => (st, [], Running)
  | S n' =>
      let '(st1, evs1, s1) := save_worker E st in
      match s1 with
      | Running =>
          let '(st2, evs2, s2) := run_save_worker E n' st1 in
          (st2, evs1 ++ evs2, s2)
      | _ => (st1, evs1, s1)
      end
  end.

(** The batches handed to the sink, oldest first. *)
Fixpoint sink_calls (evs : list event) : list (list WorkloadItem) :=
  match evs with
  | [] => []
  | Persist items :: rest => items :: sink_calls rest
  | _ :: rest => sink_calls rest
  end.

(** What one iteration of [main] meets: the page [get_workload()] returns,
    what the other tasks do to the queues while it is awaited, and what they
    do between the end of this iteration and the start of the next. *)
Record Turn : Type := mkTurn {
  page : result (list WorkloadItem);
  during_fetch : State -> State;
  before_next : State -> State
}.

Fixpoint run_main (turns : list Turn) (st : State)
    : State * list event * status_of_task :=
  match turns with
  | [] => (st, [], Running)
  | t :: turns' =>
      let '(st1, evs1, s1) := main (page t) (during_fetch t) st in
      match s1 with
      | Running =>
          let '(st2, evs2, s2) := run_main turns' (before_next t st1) in
          (st2, evs1 ++ evs2, s2)
      | _ => (st1, evs1, s1)
      end
  end.

(** The size of the batch of the iteration that starts in [st]. *)
Definition batch_size (st : State) : nat :=
  Z.to_nat (Z.min (qsize (output_queue st)) 100).

(** ** What goes to the sink and to the console *)

(** [WorkloadItem.to_dict] *)
Definition to_dict (item : WorkloadItem) : json :=
  JDict [("ContractHash", JStr (contract_hash item));
         ("TokenId", JStr (token_id item));
         ("Code", match response_code item with Some code => JInt code | None => JNull end);
         ("Metadata", match metadata item with Some text => JStr text | None => JNull end)].

Module Fmt.

Fixpoint spaces (n : nat) : string :=
  match n with
  | O => EmptyString
  | S n' => String " " (spaces n')
  end.

(** The format [<w>s] of a [str]: padded on the right up to [w]. *)
Definition ljust (w : nat) (s : string) : string :=
  s +:+ spaces (w - String.length s).

(** The format [<w>d] of an [int], given its digits: padded on the left. *)
Definition rjust (w : nat) (s : string) : string :=
  spaces (w - String.length s) +:+ s.

End Fmt.

(** The URI as [save_worker] shows it. *)
Definition shown_uri (item : WorkloadItem) : string :=
  let uri := token_uri item in
  if (32 <? String.length uri)%nat then Str.slice_to 29 (token_uri item) +:+ "..." else uri.

(** The payload as [save_worker] shows it. *)
Definition shown_metadata (metadata : string) : string :=
  if (160 <? String.length metadata)%nat then Str.slice_to 157 metadata +:+ "..."
  else metadata.

(** The line [save_worker] prints for an item,
    [f"[{uri:32s}]: {item.response_code:3d} - {metadata}"]; [len(None)] and
    the format [3d] of [None] raise [TypeError]. *)
Definition progress_line (item : WorkloadItem) : result string :=
  let uri := shown_uri item in
  match metadata item with
  | None => Raise TypeError
  | Some metadata =>
      let metadata := shown_metadata metadata in
      match response_code item with
      | None => Raise TypeError
      | Some code =>
          Ok ("[" +:+ Fmt.ljust 32 uri +:+ "]: "
                  +:+ Fmt.rjust 3 (Dumps.int_repr code) +:+ " - " +:+ metadata)
      end
  end.

(** [n] iterations of one [worker] with nothing else running. *)
Fixpoint run_worker (E : Env) (n : nat) (st : State)
    : State * list event * status_of_task :=
  match n with
  | O => (st, [], Running)
  | S n' =>
      let '(st1, evs1, s1) := worker E (fun st => st) st in
      match s1 with
      | Running =>
          let '(st2, evs2, s2) := run_worker E n' st1 in
          (st2, evs1 ++ evs2, s2)
      | _ => (st1, evs1, s1)
      end
  end.

(** ** What [replace_ipfs_gateway] looks for, in words *)

Module Segment.

Fixpoint all (p : ascii -> bool) (s : string) : bool :=
  match s with
  | EmptyString => true
  | String c t => p c && all p t
  end.

(** The two shapes of a content address. *)
Definition cid_shape (seg : string) : Prop :=
  (String.length seg = 46%nat /\ all alnum seg = true)
  \/ (String.length seg = 59%nat /\ all lower_alnum seg = true).

(** What may follow the address: a slash, the end of the URI, or a newline
    that ends the URI. *)
Definition closes (rest : string) : Prop :=
  rest = "" \/ rest = String "010" "" \/ exists r, rest = "/" +:+ r.

(** [suf] begins with a slash, a content address and its closing. *)
Definition segment_at (suf : string) : Prop :=
  exists seg rest, suf = "/" +:+ seg +:+ rest /\ cid_shape seg /\ closes rest.

(** [uri] has such a segment somewhere. *)
Definition has_segment (uri : string) : Prop :=
  exists pre suf, uri = pre +:+ suf /\ segment_at suf.

Definition closing : Re.regex := Re.Times 1 (Re.Alt (Re.Lit "/") Re.Dollar).

End Segment.

(** ** JSON-encoded texts *)

Module JsonText.

Definition float_char (c : ascii) : bool :=
  Str.between "0" "9" c || Ascii.eqb c "." || Ascii.eqb c "e"
  || Ascii.eqb c "+" || Ascii.eqb c "-".

(** The texts [json.dumps] writes for a float: [NaN], [Infinity],
    [-Infinity], or digits with a sign, a point and an exponent. *)
Definition float_text (r : string) : bool :=
  String.eqb r "NaN" || String.eqb r "Infinity" || String.eqb r "-Infinity"
  || match r with
     | String c _ => (Str.between "0" "9" c || Ascii.eqb c "-") && Segment.all float_char r
     | EmptyString => false
     end.

(** The floats of the value are carried by such texts. *)
Fixpoint well_formed (j : json) : bool :=
  match j with
  | JFloat r => float_text r
  | JList l => forallb well_formed l
  | JDict d => forallb (fun kv => well_formed (snd kv)) d
  | _ => true
  end.

(** [s] is what [json.dumps] writes for some JSON value. *)
Definition encoded (s : string) : Prop :=
  exists j, well_formed j = true /\ s = Dumps.dumps j.

(** The characters such a text can start with. *)
Definition first_char (c : ascii) : bool :=
  Str.between "0" "9" c || Ascii.eqb c "-" || Ascii.eqb c "N" || Ascii.eqb c "I"
  || Ascii.eqb c "n" || Ascii.eqb c "t" || Ascii.eqb c "f"
  || Ascii.eqb c "034" || Ascii.eqb c "[" || Ascii.eqb c "{".

End JsonText.

(** The documents [request_metadata] writes out for [uri]: one of its
    error documents, the one the worker puts in place of the unset pair, or
    the body [response.json()] parsed. *)
Definition remote_document (E : Env) (uri : string) (j : json) : Prop :=
  (exists msg,
      In msg ["invalid ipfs link"; "unknown protocol"; "result is not parsable";
              "result is no json"; "service not found"; "invalid URI"; "no response"]
      /\ j = error_dict msg)
  \/ (exists response,
         session_get E uri = Ok response /\ response_json response = Ok j).

(** ** An environment for the examples

    Data URIs of the plain form [data:<mediatype>,<text>] with ASCII text
    and no escapes are decoded, every other URI is refused by [datauri].  A
    [data:] URI is no URL for the HTTP client, a few hosts fail each in its
    own way, every other host answers 200 with the JSON document [{}].  The
    sink accepts every batch. *)

Module Sample.

Fixpoint after_comma (s : string) : option string :=
  match s with
  | EmptyString => None
  | String c t => if Ascii.eqb c "," then Some t else after_comma t
  end.

Definition parse (uri : string) : result (list Byte.byte) :=
  if Str.startswith uri "data:" then
    match after_comma (Str.slice_from 5 uri) with
    | Some text => Ok (list_byte_of_string text)
    | None => Raise ValueError
    end
  else Raise ValueError.

Definition decode (content : list Byte.byte) : result string :=
  Ok (string_of_list_byte content).

Definition get (uri : string) : result Response :=
  if Str.startswith uri "data:" then Raise InvalidURL
  else if Str.startswith uri "https://down.example/" then Raise ClientConnectorError
  else if Str.startswith uri "https://html.example/" then
    Ok (mkResponse 200 (Raise ContentTypeError))
  else if Str.startswith uri "https://broken.example/" then
    Ok (mkResponse 200 (Raise JSONDecodeError))
  else if Str.startswith uri "https://gone.example/" then
    Ok (mkResponse 404 (Ok (JDict [("detail", JStr "Not found")])))
  else if Str.startswith uri "https://odd.example/" then Raise OtherException
  else Ok (mkResponse 200 (Ok (JDict []))).

Definition env (gateway : string) : Env :=
  mkEnv (mkConfig "key" "https://api.example" gateway 200)
        parse decode get (fun _ => Ok tt).

Definition int (s : string) : result Z :=
  match NilZero.int_of_string s with
  | Some d => Ok (Z.of_int d)
  | None => Raise ValueError
  end.

End Sample.

(** ** Data for the examples *)

Definition cid46 : string := "QmYwAPJzv5CZsnA625s3Xf2nemtYgPpHdWEz79ojWnPbdG".
Definition cid59 : string := "bafybeigdyrzt5sfp7udm7hu76uh7y26nf3efuylqabf3oclgtqy55fbzdi".

Definition example_uri : string := "https://example.com/ipfs/" +:+ cid46 +:+ "/meta.json".

Definition odd_item : WorkloadItem := new_item "0xabc" "7" "https://odd.example/7.json".

Definition plain_ipfs_item : WorkloadItem := new_item "0xabc" "1" "ipfs://metadata/1.json".
Definition plain_ar_item : WorkloadItem := new_item "0xabc" "2" "AR://metadata/2.json".

Definition cid_ipfs_item : WorkloadItem := new_item "0xabc" "3" ("ipfs://" +:+ cid46).

Definition hello_item : WorkloadItem := new_item "0xabc" "4" "data:text/plain,hello".

Definition empty_item : WorkloadItem := new_item "0xabc" "5" "data:,".

Definition resolved_item : WorkloadItem :=
  set_metadata (new_item "0xabc" "1" "https://meta.example/1.json") (Some 200) (Some "{}").

Definition backlog : State := mkState [] (repeat resolved_item 250).

Definition fresh_item : WorkloadItem := new_item "0xabc" "9" "https://meta.example/9.json".

Definition full : State := mkState (repeat fresh_item (Z.to_nat 10001)) [].
Definition drained : State := mkState [] [].

(** The workers empty the input queue. *)
Definition drain (st : State) : State := mkState [] (output_queue st).

Definition keep (st : State) : State := st.

(** A worker still holds results to deliver: the output queue fills while
    the page is awaited. *)
Definition deliver (st : State) : State :=
  mkState (input_queue st) (output_queue st ++ [resolved_item]).

Definition three_set : gmap string string :=
  <["API_URI" := "https://api.example"]>
    (<["API_KEY" := "secret"]> (<["IPFS_GATEWAY" := "https://gw/ipfs"]> ∅)).

Definition no_gateway : gmap string string :=
  <["API_URI" := "https://api.example"]>
    (<["API_KEY" := "secret"]> (<["MAX_REQUESTS" := "50"]> ∅)).

(** Every queued result has its code and its payload set. *)
Definition queue_ok (st : State) : Prop :=
  Forall (fun item => prints item = true) (output_queue st).

(** 10,000 items queued: the most at which the producer still asks for a
    page. *)
Definition at_mark : State := mkState (repeat fresh_item (Z.to_nat 10000)) [].

(** [Queue.put(item)] *)
Definition put (q : list WorkloadItem) (item : WorkloadItem) : list WorkloadItem :=
  q ++ [item].

(** A worker takes the next item off the input queue. *)
Definition take_one (st : State) : State :=
  mkState (tail (input_queue st)) (output_queue st).

Definition two_queued : State := mkState [fresh_item; fresh_item] [].

Definition long_item : WorkloadItem :=
  set_metadata (new_item "0xabc" "6" ("https://meta.example/ipfs/" +:+ cid46 +:+ "/6.json"))
    (Some 200) (Some "{}").

Definition three_fresh : list WorkloadItem :=
  [new_item "0xabc" "1" "https://gone.example/1.json"; hello_item; plain_ipfs_item].

(** * Properties *)

(** ** Strings *)

Module StrFacts.
Import Str.

Lemma app_cons (c : ascii) (s t : string) : String c s +:+ t = String c (s +:+ t).
Proof. reflexivity. Qed.

Lemma app_nil_l (s : string) : "" +:+ s = s.
Proof. reflexivity. Qed.

Lemma app_nil_r (s : string) : s +:+ "" = s.
Proof. induction s as [|c s IH]; [reflexivity | now rewrite app_cons, IH]. Qed.

Lemma slice_from_app (a b : string) : slice_from (String.length a) (a +:+ b) = b.
Proof.
  induction a as [|x a IH]; [now destruct b | rewrite app_cons; exact IH].
Qed.

Lemma startswith_app (s p : string) :
  startswith s p = true <-> exists t, s = p +:+ t.
Proof.
  unfold startswith. revert s; induction p as [|c p IH]; intros s; simpl.
  - destruct s; split; eauto.
  - destruct s as [|d s].
    + split; [discriminate | intros [t Ht]; discriminate].
    + simpl. destruct (ascii_dec c d) as [->|Hne].
      * rewrite IH. split; intros [t Ht]; exists t.
        -- now rewrite app_cons, Ht.
        -- rewrite app_cons in Ht. now injection Ht.
      * split; [discriminate | intros [t Ht]]. rewrite app_cons in Ht. congruence.
Qed.

End StrFacts.

(** ** The matcher *)

Module ReFacts.
Import Re.

Lemma rmatch_lit (c d : ascii) (t : string) (k : string -> bool) :
  rmatch (Lit c) (String d t) k = if Ascii.eqb c d then k t else false.
Proof. reflexivity. Qed.

Lemma rmatch_cat (r1 r2 : regex) (s : string) (k : string -> bool) :
  rmatch (Cat r1 r2) s k = rmatch r1 s (fun s' => rmatch r2 s' k).
Proof. reflexivity. Qed.

Lemma rmatch_alt (r1 r2 : regex) (s : string) (k : string -> bool) :
  rmatch (Alt r1 r2) s k = rmatch r1 s k || rmatch r2 s k.
Proof. reflexivity. Qed.

Lemma rmatch_times (n : nat) (r : regex) (s : string) (k : string -> bool) :
  rmatch (Times n r) s k = times n (rmatch r) s k.
Proof. reflexivity. Qed.

End ReFacts.

(** ** The gateway rewrite *)

Module SegmentFacts.
Import Segment.

Lemma times_class (p : ascii -> bool) (k : string -> bool) (n : nat) (s : string) :
  Re.times n (Re.rmatch (Re.Class p)) s k = true
  <-> exists seg rest,
        s = seg +:+ rest /\ String.length seg = n /\ all p seg = true /\ k rest = true.
Proof.
  revert s; induction n as [|n IH]; intros s; simpl.
  - split.
    + intros Hk. exists "", s. repeat split; assumption.
    + intros (seg & rest & -> & Hlen & _ & Hk).
      destruct seg; [exact Hk | simpl in Hlen; discriminate].
  - destruct s as [|c t]; simpl.
    + split; [discriminate |].
      intros (seg & rest & Heq & Hlen & _).
      destruct seg; [simpl in Hlen | rewrite StrFacts.app_cons in Heq]; discriminate.
    + destruct (p c) eqn:Hp.
      * rewrite IH. split.
        -- intros (seg & rest & -> & Hlen & Hall & Hk).
           exists (String c seg), rest. simpl. rewrite Hp, Hall.
           repeat split; [now rewrite Hlen | exact Hk].
        -- intros (seg & rest & Heq & Hlen & Hall & Hk).
           destruct seg as [|d seg]; [discriminate |].
           rewrite StrFacts.app_cons in Heq. injection Heq as -> ->.
           simpl in Hall, Hlen. apply andb_true_iff in Hall as [_ Hall].
           exists seg, rest. repeat split; [lia | exact Hall | exact Hk].
      * split; [discriminate |].
        intros (seg & rest & Heq & Hlen & Hall & _).
        destruct seg as [|d seg]; [discriminate |].
        rewrite StrFacts.app_cons in Heq. injection Heq as -> ->.
        simpl in Hall. rewrite Hp in Hall. discriminate.
Qed.

Lemma closing_spec (rest : string) :
  Re.rmatch closing rest (fun _ => true) = true <-> closes rest.
Proof.
  unfold closes, closing. cbn -[Ascii.eqb].
  destruct rest as [|c t].
  - split; [now left | reflexivity].
  - destruct (Ascii.eqb_spec "/" c) as [<-|Hne].
    + split; [intros _; right; right; now exists t | reflexivity].
    + rewrite orb_false_l, andb_true_r. unfold Re.at_dollar.
      destruct t as [|d t].
      * destruct (Ascii.eqb_spec c "010") as [->|Hnl].
        -- split; [intros _; right; now left | reflexivity].
        -- split; [discriminate |].
           intros [H | [H | [r H]]]; [discriminate | congruence |].
           rewrite StrFacts.app_cons in H. congruence.
      * split; [discriminate |].
        intros [H | [H | [r H]]]; [discriminate | discriminate |].
        rewrite StrFacts.app_cons in H. congruence.
Qed.

Lemma match_here_spec (s : string) :
  Re.match_here cid_pattern s = true <-> segment_at s.
Proof.
  unfold Re.match_here, cid_pattern, segment_at, cid_shape.
  change (Re.Times 1 (Re.Alt (Re.Lit "/") Re.Dollar)) with closing.
  destruct s as [|c t].
  - split; [discriminate | intros (seg & rest & H & _); discriminate].
  - rewrite ReFacts.rmatch_cat, ReFacts.rmatch_lit.
    destruct (Ascii.eqb_spec "/" c) as [<-|Hne].
    + rewrite ReFacts.rmatch_cat, ReFacts.rmatch_alt, !ReFacts.rmatch_times.
      rewrite orb_true_iff, !times_class. split.
      * intros [H | H]; destruct H as (seg & rest & -> & Hlen & Hall & Hk);
          apply closing_spec in Hk; exists seg, rest; auto.
      * intros (seg & rest & Heq & Hshape & Hcl).
        rewrite StrFacts.app_cons in Heq. injection Heq as ->.
        apply closing_spec in Hcl.
        destruct Hshape as [[Hlen Hall] | [Hlen Hall]];
          [left | right]; exists seg, rest; auto.
    + split; [discriminate |].
      intros (seg & rest & Heq & _). rewrite StrFacts.app_cons in Heq. congruence.
Qed.

(** [re.search] returns the leftmost position at which the pattern
    matches, and [None] when there is none. *)
Lemma search_from_some (r : Re.regex) (s : string) (i j : nat) :
  Re.search_from r i s = Some j ->
  exists pre suf,
    s = pre +:+ suf /\ j = (i + String.length pre)%nat
    /\ Re.match_here r suf = true
    /\ forall pre' suf', s = pre' +:+ suf' -> Re.match_here r suf' = true ->
                         (String.length pre <= String.length pre')%nat.
Proof.
  revert i; induction s as [|c t IH]; intros i; simpl.
  - destruct (Re.match_here r "") eqn:Hm; [|discriminate].
    intros [= <-]. exists "", "".
    split; [reflexivity |]. split; [simpl; lia |]. split; [exact Hm |].
    intros; simpl; lia.
  - destruct (Re.match_here r (String c t)) eqn:Hm.
    + intros [= <-]. exists "", (String c t).
      split; [reflexivity |]. split; [simpl; lia |]. split; [exact Hm |].
      intros; simpl; lia.
    + intros H. apply IH in H as (pre & suf & -> & -> & Hsuf & Hleft).
      exists (String c pre), suf.
      split; [now rewrite StrFacts.app_cons |]. split; [simpl; lia |].
      split; [exact Hsuf |].
      intros pre' suf' Heq Hm'. destruct pre' as [|d pre'].
      * rewrite StrFacts.app_nil_l in Heq. subst suf'. congruence.
      * rewrite StrFacts.app_cons in Heq. injection Heq as <- Heq.
        simpl. apply le_n_S. now apply (Hleft pre' suf').
Qed.

Lemma search_from_none (r : Re.regex) (s : string) (i : nat) :
  Re.search_from r i s = None ->
  forall pre suf, s = pre +:+ suf -> Re.match_here r suf = false.
Proof.
  revert i; induction s as [|c t IH]; intros i; simpl.
  - destruct (Re.match_here r "") eqn:Hm; [discriminate |].
    intros _ pre suf Heq.
    destruct pre; [| rewrite StrFacts.app_cons in Heq; discriminate].
    rewrite StrFacts.app_nil_l in Heq. now subst.
  - destruct (Re.match_here r (String c t)) eqn:Hm; [discriminate |].
    intros H pre suf Heq. destruct pre as [|d pre].
    + rewrite StrFacts.app_nil_l in Heq. now subst.
    + rewrite StrFacts.app_cons in Heq. injection Heq as <- Heq.
      now apply (IH _ H pre suf).
Qed.

Lemma has_segment_search (uri : string) :
  has_segment uri <-> exists start, Re.search cid_pattern uri = Some start.
Proof.
  unfold has_segment, Re.search. split.
  - intros (pre & suf & Heq & Hseg). apply match_here_spec in Hseg.
    destruct (Re.search_from cid_pattern 0 uri) as [start|] eqn:Hs; [eauto |].
    rewrite (search_from_none _ _ _ Hs pre suf Heq) in Hseg. discriminate.
  - intros [start Hs].
    apply search_from_some in Hs as (pre & suf & Heq & _ & Hm & _).
    exists pre, suf. split; [exact Heq | now apply match_here_spec].
Qed.

Lemma no_segment (uri : string) :
  Re.search cid_pattern uri = None -> ~ has_segment uri.
Proof.
  intros Hs H. apply has_segment_search in H as [start H]. congruence.
Qed.

End SegmentFacts.

Example cid46_length : String.length cid46 = 46%nat. Proof. reflexivity. Qed.
Example cid59_length : String.length cid59 = 59%nat. Proof. reflexivity. Qed.

Example rewrite_example :
  replace_ipfs_gateway "https://gw/ipfs" example_uri
  = "https://gw/ipfs/QmYwAPJzv5CZsnA625s3Xf2nemtYgPpHdWEz79ojWnPbdG/meta.json".
Proof. reflexivity. Qed.

Example rewrite_cid59 :
  replace_ipfs_gateway "https://gw/ipfs" ("ipfs://" +:+ cid59)
  = "https://gw/ipfs/" +:+ cid59.
Proof. reflexivity. Qed.

Example rewrite_needs_slash : replace_ipfs_gateway "https://gw/ipfs" cid46 = cid46.
Proof. reflexivity. Qed.

Example rewrite_needs_closing :
  replace_ipfs_gateway "https://gw/ipfs" ("ipfs://" +:+ cid46 +:+ "?x=1")
  = "ipfs://" +:+ cid46 +:+ "?x=1".
Proof. reflexivity. Qed.

(** C3, as the code has it.  When a slash is followed by a content address
    (46 alphanumeric or 59 lower-case alphanumeric characters) and then by a
    slash, the end of the URI or a newline that ends it, the result of
    [replace_ipfs_gateway] is the gateway prefix followed by the URI from
    the slash before the leftmost such address on; a URI with no such
    segment is returned as it is. *)
Theorem C3_gateway_rewrite (gateway uri : string) :
  (Segment.has_segment uri ->
   exists pre suf,
     uri = pre +:+ suf /\ Segment.segment_at suf
     /\ (forall pre' suf', uri = pre' +:+ suf' -> Segment.segment_at suf' ->
                           (String.length pre <= String.length pre')%nat)
     /\ replace_ipfs_gateway gateway uri = gateway +:+ suf)
  /\ (~ Segment.has_segment uri -> replace_ipfs_gateway gateway uri = uri).
Proof.
  unfold replace_ipfs_gateway. split.
  - intros Hseg. apply SegmentFacts.has_segment_search in Hseg as [start Hs].
    rewrite Hs. unfold Re.search in Hs.
    apply SegmentFacts.search_from_some in Hs as (pre & suf & Heq & Hstart & Hm & Hleft).
    exists pre, suf. split; [exact Heq |].
    split; [now apply SegmentFacts.match_here_spec |]. split.
    + intros pre' suf' Heq' Hseg'. apply (Hleft pre' suf' Heq').
      now apply SegmentFacts.match_here_spec.
    + simpl in Hstart. subst start uri. now rewrite StrFacts.slice_from_app.
  - intros Hno. destruct (Re.search cid_pattern uri) as [start|] eqn:Hs; [| reflexivity].
    exfalso. apply Hno, SegmentFacts.has_segment_search. eauto.
Qed.

Lemma C3_gateway_rewrite_witness :
  Segment.has_segment example_uri
  /\ (exists pre suf,
        example_uri = pre +:+ suf /\ Segment.segment_at suf
        /\ (forall pre' suf', example_uri = pre' +:+ suf' -> Segment.segment_at suf' ->
                              (String.length pre <= String.length pre')%nat)
        /\ replace_ipfs_gateway "https://gw/ipfs" example_uri = "https://gw/ipfs" +:+ suf)
  /\ ~ Segment.has_segment "ipfs://metadata/1.json"
  /\ replace_ipfs_gateway "https://gw/ipfs" "ipfs://metadata/1.json"
     = "ipfs://metadata/1.json".
Proof.
  assert (Hyes : Segment.has_segment example_uri).
  { exists "https://example.com/ipfs", ("/" +:+ cid46 +:+ "/meta.json").
    split; [reflexivity |]. exists cid46, "/meta.json".
    split; [reflexivity |]. split; [left; split; reflexivity |].
    right; right. now exists "meta.json". }
  assert (Hno : ~ Segment.has_segment "ipfs://metadata/1.json")
    by (apply SegmentFacts.no_segment; reflexivity).
  split; [exact Hyes |].
  split; [exact (proj1 (C3_gateway_rewrite "https://gw/ipfs" example_uri) Hyes) |].
  split; [exact Hno |].
  exact (proj2 (C3_gateway_rewrite "https://gw/ipfs" "ipfs://metadata/1.json") Hno).
Defined.

(** C3 as the spec words it fails on its own example: the slice starts at
    the slash before the address, so a gateway prefix that ends in a slash
    gives two; and [Qm] followed by 46 more characters is no address at
    all. *)
Lemma C3_counterexample :
  replace_ipfs_gateway "https://gw/ipfs/" ("https://example.com/ipfs/" +:+ cid46 +:+ "/meta.json")
  <> "https://gw/ipfs/" +:+ cid46 +:+ "/meta.json"
  /\ replace_ipfs_gateway "https://gw/ipfs/"
       ("https://example.com/ipfs/" +:+ "Qm" +:+ cid46 +:+ "/meta.json")
     <> "https://gw/ipfs/" +:+ "Qm" +:+ cid46 +:+ "/meta.json".
Proof. split; vm_compute; discriminate. Qed.

(** ** The scheme check of [request_metadata] *)

Lemma ar_is_not_ipfs (s : string) :
  Str.startswith s "ar://" = true -> Str.startswith s "ipfs://" = false.
Proof. intros H. apply StrFacts.startswith_app in H as [t ->]. reflexivity. Qed.

Example scheme_upper :
  request_metadata (Sample.env "https://gw/ipfs") "IPFS://metadata/1.json"
  = ((Some 4, Some (Dumps.error_text "invalid ipfs link")), []).
Proof. reflexivity. Qed.

Example scheme_mixed :
  request_metadata (Sample.env "https://gw/ipfs") "Ipfs://metadata/1.json"
  = ((Some 4, Some (Dumps.error_text "invalid ipfs link")), []).
Proof. reflexivity. Qed.

Example scheme_ar_upper :
  request_metadata (Sample.env "https://gw/ipfs") "AR://abc"
  = ((Some 5, Some (Dumps.error_text "unknown protocol")), []).
Proof. reflexivity. Qed.

Lemma scheme_rejected (E : Env) (uri : string) :
  (Str.startswith (Str.lower uri) "ipfs://" = true ->
   request_metadata E uri = ((Some 4, Some (Dumps.error_text "invalid ipfs link")), []))
  /\ (Str.startswith (Str.lower uri) "ar://" = true ->
      request_metadata E uri = ((Some 5, Some (Dumps.error_text "unknown protocol")), [])).
Proof.
  unfold request_metadata. split; intros H.
  - rewrite H. reflexivity.
  - rewrite (ar_is_not_ipfs _ H), H. reflexivity.
Qed.

(** C10.  [request_metadata] tests the lower-cased URI: whatever the case of
    its letters, a URI that starts with [ipfs://] is answered with code 4
    and [{"error": "invalid ipfs link"}], one that starts with [ar://] with
    code 5 and [{"error": "unknown protocol"}], and no request is made. *)
Theorem C10_scheme_check_ignores_case (E : Env) (uri : string) :
  (Str.startswith (Str.lower uri) "ipfs://" = true ->
   request_metadata E uri = ((Some 4, Some (Dumps.error_text "invalid ipfs link")), []))
  /\ (Str.startswith (Str.lower uri) "ar://" = true ->
      request_metadata E uri = ((Some 5, Some (Dumps.error_text "unknown protocol")), [])).
Proof.
  unfold request_metadata. split; intros H.
  - rewrite H. reflexivity.
  - rewrite (ar_is_not_ipfs _ H), H. reflexivity.
Qed.

Lemma C10_scheme_check_ignores_case_witness :
  Str.startswith (Str.lower "IPFS://Metadata/1.json") "ipfs://" = true
  /\ request_metadata (Sample.env "https://gw/ipfs") "IPFS://Metadata/1.json"
     = ((Some 4, Some (Dumps.error_text "invalid ipfs link")), [])
  /\ Str.startswith (Str.lower "Ar://abc") "ar://" = true
  /\ request_metadata (Sample.env "https://gw/ipfs") "Ar://abc"
     = ((Some 5, Some (Dumps.error_text "unknown protocol")), []).
Proof.
  split; [reflexivity |]. split.
  - apply (proj1 (C10_scheme_check_ignores_case _ "IPFS://Metadata/1.json")). reflexivity.
  - split; [reflexivity |].
    apply (proj2 (C10_scheme_check_ignores_case _ "Ar://abc")). reflexivity.
Defined.

(** ** The outcomes of a fetch *)

(** C5.  For a URI that passes the scheme check, [request_metadata] makes
    one GET and maps what happens to it: a body that [response.json()]
    parses gives the HTTP status and the body written out again by
    [json.dumps]; a [JSONDecodeError] gives 1 and "result is not parsable",
    a [ContentTypeError] 1 and "result is no json", a
    [ClientConnectorError] 3 and "service not found", an [InvalidURL] 2 and
    "invalid URI". *)
Theorem C5_fetch_outcomes (E : Env) (uri : string) :
  Str.startswith (Str.lower uri) "ipfs://" = false ->
  Str.startswith (Str.lower uri) "ar://" = false ->
  (forall response body,
      session_get E uri = Ok response -> response_json response = Ok body ->
      request_metadata E uri
      = ((Some (status response), Some (Dumps.dumps body)), [Get uri]))
  /\ (forall response,
        session_get E uri = Ok response -> response_json response = Raise JSONDecodeError ->
        request_metadata E uri
        = ((Some 1, Some (Dumps.error_text "result is not parsable")), [Get uri]))
  /\ (forall response,
        session_get E uri = Ok response -> response_json response = Raise ContentTypeError ->
        request_metadata E uri
        = ((Some 1, Some (Dumps.error_text "result is no json")), [Get uri]))
  /\ (session_get E uri = Raise ClientConnectorError ->
      request_metadata E uri
      = ((Some 3, Some (Dumps.error_text "service not found")), [Get uri]))
  /\ (session_get E uri = Raise InvalidURL ->
      request_metadata E uri
      = ((Some 2, Some (Dumps.error_text "invalid URI")), [Get uri])).
Proof.
  intros Hipfs Har. unfold request_metadata. rewrite Hipfs, Har.
  repeat split.
  - intros response body -> ->. reflexivity.
  - intros response -> ->. reflexivity.
  - intros response -> ->. reflexivity.
  - intros ->. reflexivity.
  - intros ->. reflexivity.
Qed.

Lemma C5_fetch_outcomes_witness :
  request_metadata (Sample.env "https://gw/ipfs") "https://gone.example/1.json"
  = ((Some 404, Some (Dumps.dumps (JDict [("detail", JStr "Not found")]))),
     [Get "https://gone.example/1.json"])
  /\ request_metadata (Sample.env "https://gw/ipfs") "https://broken.example/1.json"
     = ((Some 1, Some (Dumps.error_text "result is not parsable")),
        [Get "https://broken.example/1.json"])
  /\ request_metadata (Sample.env "https://gw/ipfs") "https://html.example/1.json"
     = ((Some 1, Some (Dumps.error_text "result is no json")),
        [Get "https://html.example/1.json"])
  /\ request_metadata (Sample.env "https://gw/ipfs") "https://down.example/1.json"
     = ((Some 3, Some (Dumps.error_text "service not found")),
        [Get "https://down.example/1.json"])
  /\ request_metadata (Sample.env "https://gw/ipfs") "data:,"
     = ((Some 2, Some (Dumps.error_text "invalid URI")), [Get "data:,"]).
Proof.
  pose proof (fun uri Hi Ha =>
    C5_fetch_outcomes (Sample.env "https://gw/ipfs") uri Hi Ha) as H.
  split; [| split; [| split; [| split]]].
  - destruct (H "https://gone.example/1.json" eq_refl eq_refl) as (H1 & _).
    apply (H1 (mkResponse 404 (Ok (JDict [("detail", JStr "Not found")])))); reflexivity.
  - destruct (H "https://broken.example/1.json" eq_refl eq_refl) as (_ & H2 & _).
    apply (H2 (mkResponse 200 (Raise JSONDecodeError))); reflexivity.
  - destruct (H "https://html.example/1.json" eq_refl eq_refl) as (_ & _ & H3 & _).
    apply (H3 (mkResponse 200 (Raise ContentTypeError))); reflexivity.
  - destruct (H "https://down.example/1.json" eq_refl eq_refl) as (_ & _ & _ & H4 & _).
    apply H4; reflexivity.
  - destruct (H "data:," eq_refl eq_refl) as (_ & _ & _ & _ & H5).
    apply H5; reflexivity.
Defined.

(** ** The worker *)

(** [request_metadata] returns two values or the unset pair. *)
Lemma request_metadata_shape (E : Env) (uri : string) :
  fst (request_metadata E uri) = (None, None)
  \/ exists code data, fst (request_metadata E uri) = (Some code, Some data).
Proof.
  unfold request_metadata.
  destruct (Str.startswith (Str.lower uri) "ipfs://"); [right; simpl; eauto |].
  destruct (Str.startswith (Str.lower uri) "ar://"); [right; simpl; eauto |].
  destruct (session_get E uri) as [response | e].
  - destruct (response_json response) as [body | e].
    + right; simpl; eauto.
    + destruct e; simpl; eauto.
  - destruct e; simpl; eauto.
Qed.

(** Inline data that decodes to a text that is not empty: code 200, the
    text as payload, and no request. *)
Lemma resolve_inline (E : Env) (item : WorkloadItem) (text : string) :
  try_get_data E (token_uri item) = Some text -> text <> "" ->
  resolve E item = (set_metadata item (Some 200) (Some text), []).
Proof.
  intros Hdata Hne. unfold resolve. rewrite Hdata.
  destruct text; [congruence | reflexivity].
Qed.

(** Everything else goes through the rewrite and then [request_metadata]. *)
Lemma resolve_remote (E : Env) (item : WorkloadItem) :
  truthy_data (try_get_data E (token_uri item)) = false ->
  resolve E item
  = let '((code, data), evs) :=
      request_metadata E
        (replace_ipfs_gateway (IPFS_GATEWAY (constants E)) (token_uri item)) in
    if negb (truthy_code code) && negb (truthy_data data)
    then (set_metadata item (Some 0) (Some (Dumps.error_text "no response")), evs)
    else (set_metadata item code data, evs).
Proof. intros H. unfold resolve. rewrite H. reflexivity. Qed.

Lemma resolve_sets_both (E : Env) (item : WorkloadItem) :
  exists code payload,
    response_code (fst (resolve E item)) = Some code
    /\ metadata (fst (resolve E item)) = Some payload.
Proof.
  unfold resolve.
  destruct (try_get_data E (token_uri item)) as [text|] eqn:Hdata; simpl.
  - destruct (Str.truthy text); [simpl; eauto |].
    destruct (request_metadata_shape E
      (replace_ipfs_gateway (IPFS_GATEWAY (constants E)) (token_uri item)))
      as [H | (c & d & H)];
      destruct (request_metadata E _) as [[code data] evs]; simpl in H;
      injection H as -> ->; simpl; [eauto |].
    destruct (negb (negb (c =? 0)) && negb (Str.truthy d)); simpl; eauto.
  - destruct (request_metadata_shape E
      (replace_ipfs_gateway (IPFS_GATEWAY (constants E)) (token_uri item)))
      as [H | (c & d & H)];
      destruct (request_metadata E _) as [[code data] evs]; simpl in H;
      injection H as -> ->; simpl; [eauto |].
    destruct (negb (negb (c =? 0)) && negb (Str.truthy d)); simpl; eauto.
Qed.

(** On the remote path the payload is a document written by [json.dumps]. *)
Lemma resolve_remote_document (E : Env) (item : WorkloadItem) :
  truthy_data (try_get_data E (token_uri item)) = false ->
  exists j,
    metadata (fst (resolve E item)) = Some (Dumps.dumps j)
    /\ remote_document E
         (replace_ipfs_gateway (IPFS_GATEWAY (constants E)) (token_uri item)) j.
Proof.
  intros Hremote. rewrite (resolve_remote _ _ Hremote).
  set (uri := replace_ipfs_gateway (IPFS_GATEWAY (constants E)) (token_uri item)).
  assert (Herr : forall msg,
            In msg ["invalid ipfs link"; "unknown protocol"; "result is not parsable";
                    "result is no json"; "service not found"; "invalid URI";
                    "no response"] ->
            remote_document E uri (error_dict msg))
    by (intros msg Hin; left; eauto).
  assert (Hno : exists j,
            Some (Dumps.dumps (error_dict "no response")) = Some (Dumps.dumps j)
            /\ remote_document E uri j)
    by (eexists; split; [reflexivity | apply Herr; simpl; tauto]).
  unfold request_metadata.
  destruct (Str.startswith (Str.lower uri) "ipfs://");
    [eexists; split; [reflexivity | apply Herr; simpl; tauto] |].
  destruct (Str.startswith (Str.lower uri) "ar://");
    [eexists; split; [reflexivity | apply Herr; simpl; tauto] |].
  destruct (session_get E uri) as [response | e] eqn:Hget.
  - destruct (response_json response) as [body | e] eqn:Hjson.
    + cbv beta iota zeta.
      destruct (negb (truthy_code (Some (status response)))
                && negb (truthy_data (Some (Dumps.dumps body)))); [exact Hno |].
      exists body. split; [reflexivity |]. right. eauto.
    + destruct e; try exact Hno;
        (eexists; split; [reflexivity | apply Herr; simpl; tauto]).
  - destruct e; try exact Hno;
      (eexists; split; [reflexivity | apply Herr; simpl; tauto]).
Qed.

(** C4, as the code has it.  An idle iteration of [worker] puts nothing on
    the output queue.  Any other iteration takes the first item of the
    input queue and appends it, resolved, to the output queue, with a
    status code and a payload that are both set.  The payload is the
    decoded text, as it is, when the item is resolved inline, and a
    document written by [json.dumps] otherwise: an error document or the
    body the fetch parsed.  When [request_metadata] returned the unset
    pair, the code is 0 and the payload [{"error": "no response"}]. *)
Theorem C4_emitted_result_is_set (E : Env) (others : State -> State) (st : State) :
  (input_queue st = [] -> worker E others st = (st, [Sleep 1], Running))
  /\ (forall item rest,
        input_queue st = item :: rest ->
        let st1 := others (mkState rest (output_queue st)) in
        let emitted := fst (resolve E item) in
        let rewritten :=
          replace_ipfs_gateway (IPFS_GATEWAY (constants E)) (token_uri item) in
        worker E others st
        = (mkState (input_queue st1) (output_queue st1 ++ [emitted]),
           snd (resolve E item), Running)
        /\ (exists code payload,
              response_code emitted = Some code /\ metadata emitted = Some payload)
        /\ (forall text,
              try_get_data E (token_uri item) = Some text -> text <> "" ->
              response_code emitted = Some 200 /\ metadata emitted = Some text)
        /\ (truthy_data (try_get_data E (token_uri item)) = false ->
            exists j,
              metadata emitted = Some (Dumps.dumps j) /\ remote_document E rewritten j)
        /\ (truthy_data (try_get_data E (token_uri item)) = false ->
            fst (request_metadata E rewritten) = (None, None) ->
            response_code emitted = Some 0
            /\ metadata emitted = Some (Dumps.error_text "no response"))).
Proof.
  split.
  - intros Hq. unfold worker. rewrite Hq. reflexivity.
  - intros item rest Hq st1 emitted rewritten. split; [| split; [| split; [| split]]].
    + unfold worker. rewrite Hq.
      replace (qsize (item :: rest) =? 0) with false
        by (symmetry; apply Z.eqb_neq; unfold qsize; simpl; lia).
      subst st1 emitted. destruct (resolve E item) as [item' evs]. reflexivity.
    + apply resolve_sets_both.
    + intros text Hdata Hne. subst emitted.
      rewrite (resolve_inline _ _ _ Hdata Hne). split; reflexivity.
    + intros Hremote. now apply resolve_remote_document.
    + intros Hremote Hunset. subst emitted rewritten.
      rewrite (resolve_remote _ _ Hremote).
      destruct (request_metadata E _) as [[code data] evs]. simpl in Hunset.
      injection Hunset as -> ->. split; reflexivity.
Qed.

Lemma C4_emitted_result_is_set_witness :
  worker (Sample.env "https://gw/ipfs") (fun st => st) (mkState [] [])
  = (mkState [] [], [Sleep 1], Running)
  /\ worker (Sample.env "https://gw/ipfs") (fun st => st) (mkState [odd_item] [])
     = (mkState [] [set_metadata odd_item (Some 0) (Some (Dumps.error_text "no response"))],
        [Get "https://odd.example/7.json"], Running)
  /\ (response_code (fst (resolve (Sample.env "https://gw/ipfs") hello_item)) = Some 200
      /\ metadata (fst (resolve (Sample.env "https://gw/ipfs") hello_item)) = Some "hello")
  /\ (exists j,
        metadata (fst (resolve (Sample.env "https://gw/ipfs") odd_item))
        = Some (Dumps.dumps j)
        /\ remote_document (Sample.env "https://gw/ipfs") "https://odd.example/7.json" j).
Proof.
  split; [| split; [| split]].
  - apply (proj1 (C4_emitted_result_is_set _ _ (mkState [] []))). reflexivity.
  - destruct (proj2 (C4_emitted_result_is_set (Sample.env "https://gw/ipfs")
                       (fun st => st) (mkState [odd_item] []))
                odd_item [] eq_refl) as (Hw & _ & _ & _ & Hunset).
    destruct (Hunset eq_refl eq_refl) as [Hc Hm].
    rewrite Hw. reflexivity.
  - destruct (proj2 (C4_emitted_result_is_set (Sample.env "https://gw/ipfs")
                       (fun st => st) (mkState [hello_item] []))
                hello_item [] eq_refl) as (_ & _ & Hinline & _).
    apply (Hinline "hello"); [reflexivity | discriminate].
  - destruct (proj2 (C4_emitted_result_is_set (Sample.env "https://gw/ipfs")
                       (fun st => st) (mkState [odd_item] []))
                odd_item [] eq_refl) as (_ & _ & _ & Hdoc & _).
    apply Hdoc. reflexivity.
Defined.

Lemma int_repr_first (n : Z) :
  exists c t, Dumps.int_repr n = String c t /\ JsonText.first_char c = true.
Proof.
  unfold Dumps.int_repr. destruct (Z.to_int n) as [d | d].
  - destruct d; simpl; eexists _, _; (split; [reflexivity | reflexivity]).
  - simpl. eexists _, _. split; reflexivity.
Qed.

(** A JSON-encoded text starts as a JSON value does. *)
Lemma encoded_first (s : string) :
  JsonText.encoded s ->
  exists c t, s = String c t /\ JsonText.first_char c = true.
Proof.
  intros (j & Hwf & ->). destruct j as [| [|] | n | r | text | l | d].
  - eexists _, _. split; reflexivity.
  - eexists _, _. split; reflexivity.
  - eexists _, _. split; reflexivity.
  - apply int_repr_first.
  - simpl in Hwf. unfold JsonText.float_text in Hwf. simpl Dumps.dumps.
    repeat (apply orb_true_iff in Hwf as [Hwf | Hwf]).
    + apply String.eqb_eq in Hwf as ->. eexists _, _. split; reflexivity.
    + apply String.eqb_eq in Hwf as ->. eexists _, _. split; reflexivity.
    + apply String.eqb_eq in Hwf as ->. eexists _, _. split; reflexivity.
    + destruct r as [|c t]; [discriminate |].
      apply andb_true_iff in Hwf as [Hc _]. exists c, t. split; [reflexivity |].
      unfold JsonText.first_char. apply orb_true_iff in Hc as [-> | ->];
        [reflexivity | now rewrite orb_true_r].
  - eexists _, _. split; reflexivity.
  - eexists _, _. split; reflexivity.
  - eexists _, _. split; reflexivity.
Qed.

(** C4 as the spec words it fails on the inline path: the item of the data
    URI of the text [hello] is put on the output queue with the payload
    [hello], which is the encoding of no JSON value. *)
Lemma C4_counterexample :
  worker (Sample.env "https://gw/ipfs") (fun st => st) (mkState [hello_item] [])
  = (mkState [] [set_metadata hello_item (Some 200) (Some "hello")], [], Running)
  /\ ~ JsonText.encoded "hello".
Proof.
  split; [reflexivity |].
  intros H. apply encoded_first in H as (c & t & Heq & Hc).
  injection Heq as <- _. discriminate.
Qed.


(** The rewriting of a URI that has a content-address segment. *)
Lemma rewrite_at_segment (gateway uri : string) :
  Segment.has_segment uri ->
  exists pre suf,
    uri = pre +:+ suf /\ Segment.segment_at suf
    /\ (forall pre' suf', uri = pre' +:+ suf' -> Segment.segment_at suf' ->
                          (String.length pre <= String.length pre')%nat)
    /\ replace_ipfs_gateway gateway uri = gateway +:+ suf.
Proof.
  intros Hseg. apply SegmentFacts.has_segment_search in Hseg as [start Hs].
  unfold replace_ipfs_gateway. rewrite Hs. unfold Re.search in Hs.
  apply SegmentFacts.search_from_some in Hs as (pre & suf & Heq & Hstart & Hm & Hleft).
  exists pre, suf. split; [exact Heq |].
  split; [now apply SegmentFacts.match_here_spec |]. split.
  - intros pre' suf' Heq' Hseg'. apply (Hleft pre' suf' Heq').
    now apply SegmentFacts.match_here_spec.
  - simpl in Hstart. subst start uri. now rewrite StrFacts.slice_from_app.
Qed.

(** A remote resolution whose rewritten URI passes the scheme check makes
    one request, for the rewritten URI. *)
Lemma resolve_remote_requests (E : Env) (item : WorkloadItem) :
  truthy_data (try_get_data E (token_uri item)) = false ->
  let rewritten :=
    replace_ipfs_gateway (IPFS_GATEWAY (constants E)) (token_uri item) in
  Str.startswith (Str.lower rewritten) "ipfs://" = false ->
  Str.startswith (Str.lower rewritten) "ar://" = false ->
  snd (resolve E item) = [Get rewritten].
Proof.
  intros Hremote rewritten Hipfs Har. rewrite (resolve_remote _ _ Hremote).
  fold rewritten. unfold request_metadata. rewrite Hipfs, Har.
  destruct (session_get E rewritten) as [response | e].
  - destruct (response_json response) as [body | e].
    + simpl. destruct (_ && _); reflexivity.
    + destruct e; reflexivity.
  - destruct e; reflexivity.
Qed.

(** C1, as the code has it.  The worker rewrites the URI first and checks
    the scheme of the rewritten URI.  For an item that is not resolved
    inline: when the rewritten URI starts with [ipfs://], in any case of
    letters, the item gets code 4 and [{"error": "invalid ipfs link"}], when
    it starts with [ar://] code 5 and [{"error": "unknown protocol"}], and
    no request is made.  A URI without a content-address segment is its own
    rewriting, so with one of the two schemes it is rejected in this way.  A
    URI with such a segment is rewritten to the gateway prefix followed by
    the URI from the slash before the leftmost segment on; and whenever the
    rewritten URI starts with neither scheme, one request is made, for the
    rewritten URI. *)
Theorem C1_scheme_check_follows_rewrite (E : Env) (item : WorkloadItem) :
  truthy_data (try_get_data E (token_uri item)) = false ->
  let rewritten :=
    replace_ipfs_gateway (IPFS_GATEWAY (constants E)) (token_uri item) in
  (Str.startswith (Str.lower rewritten) "ipfs://" = true ->
   resolve E item
   = (set_metadata item (Some 4) (Some (Dumps.error_text "invalid ipfs link")), []))
  /\ (Str.startswith (Str.lower rewritten) "ar://" = true ->
      resolve E item
      = (set_metadata item (Some 5) (Some (Dumps.error_text "unknown protocol")), []))
  /\ (~ Segment.has_segment (token_uri item) ->
      Str.startswith (Str.lower (token_uri item)) "ipfs://" = true ->
      resolve E item
      = (set_metadata item (Some 4) (Some (Dumps.error_text "invalid ipfs link")), []))
  /\ (~ Segment.has_segment (token_uri item) ->
      Str.startswith (Str.lower (token_uri item)) "ar://" = true ->
      resolve E item
      = (set_metadata item (Some 5) (Some (Dumps.error_text "unknown protocol")), []))
  /\ (Segment.has_segment (token_uri item) ->
      exists pre suf,
        token_uri item = pre +:+ suf /\ Segment.segment_at suf
        /\ (forall pre' suf', token_uri item = pre' +:+ suf' -> Segment.segment_at suf' ->
                              (String.length pre <= String.length pre')%nat)
        /\ rewritten = IPFS_GATEWAY (constants E) +:+ suf)
  /\ (Str.startswith (Str.lower rewritten) "ipfs://" = false ->
      Str.startswith (Str.lower rewritten) "ar://" = false ->
      snd (resolve E item) = [Get rewritten]).
Proof.
  intros Hremote rewritten.
  assert (Hipfs : Str.startswith (Str.lower rewritten) "ipfs://" = true ->
    resolve E item
    = (set_metadata item (Some 4) (Some (Dumps.error_text "invalid ipfs link")), [])).
  { intros H. rewrite (resolve_remote _ _ Hremote). fold rewritten.
    rewrite (proj1 (scheme_rejected E rewritten) H). reflexivity. }
  assert (Har : Str.startswith (Str.lower rewritten) "ar://" = true ->
    resolve E item
    = (set_metadata item (Some 5) (Some (Dumps.error_text "unknown protocol")), [])).
  { intros H. rewrite (resolve_remote _ _ Hremote). fold rewritten.
    rewrite (proj2 (scheme_rejected E rewritten) H). reflexivity. }
  assert (Hsame : ~ Segment.has_segment (token_uri item) -> rewritten = token_uri item).
  { intros Hno. unfold rewritten, replace_ipfs_gateway.
    destruct (Re.search cid_pattern (token_uri item)) as [start|] eqn:Hs; [| reflexivity].
    exfalso. apply Hno, SegmentFacts.has_segment_search. eauto. }
  split; [exact Hipfs |]. split; [exact Har |].
  split; [| split; [| split]].
  - intros Hno H. apply Hipfs. now rewrite (Hsame Hno).
  - intros Hno H. apply Har. now rewrite (Hsame Hno).
  - intros Hseg. now apply rewrite_at_segment.
  - now apply resolve_remote_requests.
Qed.

Lemma C1_scheme_check_follows_rewrite_witness :
  resolve (Sample.env "https://gw/ipfs") plain_ipfs_item
  = (set_metadata plain_ipfs_item (Some 4) (Some (Dumps.error_text "invalid ipfs link")), [])
  /\ resolve (Sample.env "https://gw/ipfs") plain_ar_item
     = (set_metadata plain_ar_item (Some 5) (Some (Dumps.error_text "unknown protocol")), [])
  /\ resolve (Sample.env "ipfs://gw") cid_ipfs_item
     = (set_metadata cid_ipfs_item (Some 4) (Some (Dumps.error_text "invalid ipfs link")), [])
  /\ (exists pre suf,
        token_uri cid_ipfs_item = pre +:+ suf /\ Segment.segment_at suf
        /\ (forall pre' suf',
              token_uri cid_ipfs_item = pre' +:+ suf' -> Segment.segment_at suf' ->
              (String.length pre <= String.length pre')%nat)
        /\ replace_ipfs_gateway "https://gw/ipfs" (token_uri cid_ipfs_item)
           = "https://gw/ipfs" +:+ suf)
  /\ snd (resolve (Sample.env "https://gw/ipfs") cid_ipfs_item)
     = [Get ("https://gw/ipfs/" +:+ cid46)].
Proof.
  split; [| split; [| split; [| split]]].
  - destruct (C1_scheme_check_follows_rewrite (Sample.env "https://gw/ipfs")
                plain_ipfs_item eq_refl) as (_ & _ & H & _).
    apply H; [apply SegmentFacts.no_segment |]; reflexivity.
  - destruct (C1_scheme_check_follows_rewrite (Sample.env "https://gw/ipfs")
                plain_ar_item eq_refl) as (_ & _ & _ & H & _).
    apply H; [apply SegmentFacts.no_segment |]; reflexivity.
  - destruct (C1_scheme_check_follows_rewrite (Sample.env "ipfs://gw")
                cid_ipfs_item eq_refl) as (H & _).
    apply H. reflexivity.
  - destruct (C1_scheme_check_follows_rewrite (Sample.env "https://gw/ipfs")
                cid_ipfs_item eq_refl) as (_ & _ & _ & _ & H & _).
    apply H. exists "ipfs:/", ("/" +:+ cid46).
    split; [reflexivity |]. exists cid46, "".
    split; [reflexivity |]. split; [left; split; reflexivity | now left].
  - destruct (C1_scheme_check_follows_rewrite (Sample.env "https://gw/ipfs")
                cid_ipfs_item eq_refl) as (_ & _ & _ & _ & _ & H).
    apply H; reflexivity.
Defined.

(** C1 as the spec words it fails: [ipfs://<46-character address>] is
    rewritten to the gateway before the scheme is looked at, and fetched. *)
Lemma C1_counterexample :
  Str.startswith (token_uri cid_ipfs_item) "ipfs://" = true
  /\ resolve (Sample.env "https://gw/ipfs") cid_ipfs_item
     = (set_metadata cid_ipfs_item (Some 200) (Some "{}"),
        [Get ("https://gw/ipfs/" +:+ cid46)])
  /\ response_code (fst (resolve (Sample.env "https://gw/ipfs") cid_ipfs_item)) <> Some 4.
Proof. split; [reflexivity |]. split; [reflexivity |]. vm_compute. discriminate. Qed.

(** ** Inline data *)

Example inline_hello :
  resolve (Sample.env "https://gw/ipfs") hello_item
  = (set_metadata hello_item (Some 200) (Some "hello"), []).
Proof. reflexivity. Qed.

(** C2 at the data URI of the empty text.  [data:,] decodes, to [""]; the
    worker's [if data:] takes the empty text for a failure and goes on to
    the remote path: the URI is requested, and when the HTTP client refuses
    it as no URL the item gets code 2 and [{"error": "invalid URI"}] instead
    of code 200 and the decoded text. *)
Theorem C2_empty_inline_data_is_requested (E : Env) (item : WorkloadItem) :
  token_uri item = "data:," ->
  try_get_data E "data:," = Some "" ->
  snd (resolve E item) = [Get "data:,"]
  /\ (session_get E "data:," = Raise InvalidURL ->
      resolve E item
      = (set_metadata item (Some 2) (Some (Dumps.error_text "invalid URI")), [Get "data:,"])).
Proof.
  intros Huri Hdata.
  assert (Hremote : truthy_data (try_get_data E (token_uri item)) = false)
    by (rewrite Huri, Hdata; reflexivity).
  rewrite (resolve_remote _ _ Hremote), Huri.
  change (replace_ipfs_gateway (IPFS_GATEWAY (constants E)) "data:,") with "data:,".
  unfold request_metadata.
  change (Str.startswith (Str.lower "data:,") "ipfs://") with false.
  change (Str.startswith (Str.lower "data:,") "ar://") with false.
  cbv iota. split.
  - destruct (session_get E "data:,") as [response | e].
    + destruct (response_json response) as [body | e].
      * simpl. destruct (_ && _); reflexivity.
      * destruct e; reflexivity.
    + destruct e; reflexivity.
  - intros ->. reflexivity.
Qed.

Lemma C2_empty_inline_data_is_requested_witness :
  try_get_data (Sample.env "https://gw/ipfs") "data:," = Some ""
  /\ resolve (Sample.env "https://gw/ipfs") empty_item
     = (set_metadata empty_item (Some 2) (Some (Dumps.error_text "invalid URI")),
        [Get "data:,"]).
Proof.
  split; [reflexivity |].
  apply (proj2 (C2_empty_inline_data_is_requested (Sample.env "https://gw/ipfs")
                  empty_item eq_refl eq_refl)).
  reflexivity.
Defined.

(** ** The batcher *)

Lemma filter_truthy_item (l : list WorkloadItem) :
  filter (fun item => truthy_item item = true) l = l.
Proof.
  induction l as [|x l IH]; [reflexivity |].
  rewrite filter_cons_True by reflexivity. now rewrite IH.
Qed.

Lemma sink_calls_app (a b : list event) :
  sink_calls (a ++ b) = sink_calls a ++ sink_calls b.
Proof.
  induction a as [|e a IH]; [reflexivity |].
  destruct e; simpl; now rewrite IH.
Qed.

Lemma batch_size_min (st : State) :
  batch_size st = Nat.min (List.length (output_queue st)) 100.
Proof. unfold batch_size, qsize. lia. Qed.


Lemma forallb_prints_take (n : nat) (q : list WorkloadItem) :
  Forall (fun item => prints item = true) q -> forallb prints (take n q) = true.
Proof.
  intros H. revert n. induction H as [|x q Hx _ IH]; intros [|n]; try reflexivity.
  simpl. now rewrite Hx, IH.
Qed.

(** One iteration, whatever is queued and whatever the sink answers. *)
Lemma save_worker_iteration (E : Env) (st : State) :
  exists evs s,
    save_worker E st
    = (mkState (input_queue st) (drop (batch_size st) (output_queue st)), evs, s)
    /\ (sink_calls evs = [] \/ sink_calls evs = [take (batch_size st) (output_queue st)])
    /\ (batch_size st = O -> sink_calls evs = [])
    /\ (batch_size st <> O ->
        Forall (fun item => prints item = true) (output_queue st) ->
        sink_calls evs = [take (batch_size st) (output_queue st)]).
Proof.
  unfold save_worker, save_workload. fold (batch_size st). rewrite filter_truthy_item.
  destruct (Z.min (qsize (output_queue st)) 100 =? 0) eqn:Hz.
  - apply Z.eqb_eq in Hz. unfold batch_size. rewrite Hz. simpl.
    rewrite drop_0. destruct st. eexists _, _. split; [reflexivity |].
    split; [now left |]. split; [reflexivity |]. intros Hne. now elim Hne.
  - apply Z.eqb_neq in Hz.
    destruct (batch_size st) as [|n] eqn:Hn; [unfold batch_size, qsize in *; lia |].
    destruct (take (S n) (output_queue st)) as [|x l] eqn:Ht.
    + exfalso. apply (f_equal (@List.length _)) in Ht.
      rewrite length_take in Ht. cbn [List.length] in Ht.
      rewrite batch_size_min in Hn. lia.
    + destruct (forallb prints (x :: l)) eqn:Hp.
      * destruct (session_post E (x :: l)); eexists _, _; (split; [reflexivity |]).
        -- destruct (_ <? 100); simpl; (split; [now right |]); split; congruence.
        -- simpl. split; [now right |]. split; congruence.
      * eexists _, _. split; [reflexivity |]. split; [now left |].
        split; [reflexivity |]. intros _ Hall.
        rewrite <- Ht, (forallb_prints_take _ _ Hall) in Hp. discriminate.
Qed.

(** One iteration when the batch can be printed and the sink accepts it. *)
Lemma save_worker_accepted (E : Env) (st : State) :
  (forall items, session_post E items = Ok tt) ->
  Forall (fun item => prints item = true) (output_queue st) ->
  batch_size st <> O ->
  exists evs,
    save_worker E st
    = (mkState (input_queue st) (drop (batch_size st) (output_queue st)), evs, Running)
    /\ sink_calls evs = [take (batch_size st) (output_queue st)].
Proof.
  intros Hpost Hall Hn. unfold save_worker, save_workload. fold (batch_size st).
  rewrite filter_truthy_item.
  replace (Z.min (qsize (output_queue st)) 100 =? 0) with false
    by (symmetry; apply Z.eqb_neq; unfold batch_size, qsize in *; lia).
  rewrite (forallb_prints_take _ _ Hall), Hpost.
  destruct (take (batch_size st) (output_queue st)) as [|x l] eqn:Ht.
  - exfalso. apply (f_equal (@List.length _)) in Ht.
    rewrite length_take, batch_size_min in Ht. rewrite batch_size_min in Hn.
    cbn [List.length] in Ht. lia.
  - eexists. split; [reflexivity |].
    destruct (_ <? 100); reflexivity.
Qed.

(** With an empty output queue the batcher only sleeps. *)
Lemma run_save_worker_idle (E : Env) (n : nat) (st : State) :
  output_queue st = [] ->
  exists evs, run_save_worker E n st = (st, evs, Running) /\ sink_calls evs = [].
Proof.
  intros Hq. induction n as [|n (evs & IH & Hcalls)]; simpl.
  - eauto.
  - unfold save_worker. rewrite Hq. simpl. rewrite IH.
    exists (Sleep 5 :: evs). split; [reflexivity | exact Hcalls].
Qed.

(** C6.  An iteration of [save_worker] takes [min(qsize, 100)] items off
    the output queue and hands exactly these to the sink in one call (no
    call when that is none, or when an item cannot be printed, which no item
    a worker queued is): no call carries more than 100 items.  With 250
    resolved items queued, a sink that accepts the batches and nothing else
    running, the sink is called three times, with 100, 100 and 50 items,
    however long the loop goes on. *)
Theorem C6_batch_cap (E : Env) (st : State) :
  (exists evs s,
      save_worker E st
      = (mkState (input_queue st) (drop (batch_size st) (output_queue st)), evs, s)
      /\ batch_size st = Nat.min (List.length (output_queue st)) 100
      /\ Forall (fun batch => batch = take (batch_size st) (output_queue st)
                              /\ List.length batch = batch_size st
                              /\ (List.length batch <= 100)%nat) (sink_calls evs)
      /\ (List.length (sink_calls evs) <= 1)%nat
      /\ (batch_size st <> O ->
          Forall (fun item => prints item = true) (output_queue st) ->
          sink_calls evs = [take (batch_size st) (output_queue st)]))
  /\ ((forall items, session_post E items = Ok tt) ->
      Forall (fun item => prints item = true) (output_queue st) ->
      List.length (output_queue st) = 250%nat ->
      forall n, (3 <= n)%nat ->
      exists st' evs,
        run_save_worker E n st = (st', evs, Running)
        /\ output_queue st' = []
        /\ sink_calls evs
           = [take 100 (output_queue st);
              take 100 (drop 100 (output_queue st));
              drop 200 (output_queue st)]
        /\ map (@List.length _) (sink_calls evs) = [100; 100; 50]%nat).
Proof.
  split.
  - destruct (save_worker_iteration E st) as (evs & s & Hrun & Hcalls & _ & Hone).
    exists evs, s. split; [exact Hrun |]. split; [apply batch_size_min |].
    split; [| split; [| exact Hone]].
    + destruct Hcalls as [-> | ->]; [constructor |].
      constructor; [| constructor]. split; [reflexivity |].
      rewrite length_take, batch_size_min. lia.
    + destruct Hcalls as [-> | ->]; simpl; lia.
  - intros Hpost Hall Hlen n Hn.
    destruct n as [|[|[|n]]]; try lia. clear Hn.
    set (q := output_queue st) in *.
    set (st1 := mkState (input_queue st) (drop 100 q)).
    set (st2 := mkState (input_queue st) (drop 100 (drop 100 q))).
    set (st3 := mkState (input_queue st) (drop 50 (drop 100 (drop 100 q)))).
    assert (H0 : batch_size st = 100%nat) by (rewrite batch_size_min; fold q; lia).
    assert (H1 : batch_size st1 = 100%nat)
      by (rewrite batch_size_min; simpl; rewrite length_drop; lia).
    assert (H2 : batch_size st2 = 50%nat)
      by (rewrite batch_size_min; simpl; rewrite !length_drop; lia).
    assert (A1 : Forall (fun item => prints item = true) (output_queue st1))
      by (simpl; now apply Forall_drop).
    assert (A2 : Forall (fun item => prints item = true) (output_queue st2))
      by (simpl; now do 2 apply Forall_drop).
    destruct (save_worker_accepted E st Hpost Hall) as (e0 & R0 & C0); [lia |].
    destruct (save_worker_accepted E st1 Hpost A1) as (e1 & R1 & C1); [lia |].
    destruct (save_worker_accepted E st2 Hpost A2) as (e2 & R2 & C2); [lia |].
    rewrite H0 in R0, C0. fold q in R0, C0. fold st1 in R0.
    rewrite H1 in R1, C1. simpl in R1, C1. fold st2 in R1.
    rewrite H2 in R2, C2. simpl in R2, C2. fold st3 in R2.
    assert (Hempty : output_queue st3 = []).
    { simpl. apply nil_length_inv. rewrite !length_drop. lia. }
    destruct (run_save_worker_idle E n st3 Hempty) as (e3 & R3 & C3).
    exists st3, (e0 ++ e1 ++ e2 ++ e3).
    split; [| split; [exact Hempty |]].
    + cbn [run_save_worker]. rewrite R0, R1, R2, R3. reflexivity.
    + assert (Hcalls : sink_calls (e0 ++ e1 ++ e2 ++ e3)
                       = [take 100 q; take 100 (drop 100 q); drop 200 q]).
      { rewrite !sink_calls_app, C0, C1, C2, C3. simpl.
        rewrite (take_ge (drop 100 (drop 100 q)) 50) by (rewrite !length_drop; lia).
        now rewrite drop_drop. }
      split; [exact Hcalls |]. rewrite Hcalls. simpl.
      rewrite !length_take, !length_drop. repeat f_equal; lia.
Qed.

Lemma C6_batch_cap_witness :
  exists st' evs,
    run_save_worker (Sample.env "https://gw/ipfs") 5 backlog = (st', evs, Running)
    /\ output_queue st' = []
    /\ sink_calls evs
       = [take 100 (output_queue backlog);
          take 100 (drop 100 (output_queue backlog));
          drop 200 (output_queue backlog)]
    /\ map (@List.length _) (sink_calls evs) = [100; 100; 50]%nat.
Proof.
  apply (proj2 (C6_batch_cap (Sample.env "https://gw/ipfs") backlog)).
  - intros items. reflexivity.
  - change (output_queue backlog) with (repeat resolved_item 250).
    generalize 250%nat. intros k. induction k; constructor; [reflexivity | assumption].
  - reflexivity.
  - lia.
Defined.

(** ** The producer *)

Lemma main_waits (workload : result (list WorkloadItem)) (others : State -> State)
    (st : State) :
  qsize (input_queue st) > 10000 -> main workload others st = (st, [Sleep 1], Running).
Proof.
  intros H. unfold main.
  replace (qsize (input_queue st) >? 10000) with true by (symmetry; apply Z.gtb_gt; lia).
  reflexivity.
Qed.

Lemma main_fetches (workload : result (list WorkloadItem)) (others : State -> State)
    (st : State) :
  qsize (input_queue st) <= 10000 ->
  main workload others st
  = match workload with
    | Raise e => (others st, [GetWorkload], Died e)
    | Ok [] =>
        if (qsize (output_queue (others st)) =? 0) && (qsize (input_queue (others st)) =? 0)
        then (others st, [GetWorkload], Returned)
        else (others st, [GetWorkload; Sleep 1], Running)
    | Ok ((_ :: _) as items) =>
        (mkState (input_queue (others st) ++ items) (output_queue (others st)),
         [GetWorkload], Running)
    end.
Proof.
  intros H. unfold main.
  replace (qsize (input_queue st) >? 10000) with false
    by (symmetry; rewrite Z.gtb_ltb; apply Z.ltb_ge; lia).
  reflexivity.
Qed.

Lemma qsize_zero (q : list WorkloadItem) : (qsize q =? 0) = true <-> q = [].
Proof.
  unfold qsize. rewrite Z.eqb_eq. destruct q; simpl; split; try reflexivity; try lia.
  discriminate.
Qed.

(** C7, as the code has it.  The producer tests the depth of the input
    queue once in an iteration, before it asks for a page.  An iteration
    that finds more than 10,000 items sleeps one second and goes back to the
    test: it asks for no page and leaves both queues as they are.  An
    iteration that finds 10,000 items or fewer asks for a page and appends
    all of it, in order, to the input queue.  So when the depth falls to
    10,000 or below during a wait, the next page is asked for and queued
    after that one sleep.  The depth is not tested between the items of a
    page: when the other tasks only take from the input queue, the depth
    after the iteration is at most 10,000 plus the length of the page. *)
Theorem C7_backpressure (st : State) :
  (qsize (input_queue st) > 10000 ->
   forall workload others, main workload others st = (st, [Sleep 1], Running))
  /\ (qsize (input_queue st) <= 10000 ->
      forall workload others,
      exists st' evs s, main workload others st = (st', GetWorkload :: evs, s))
  /\ (qsize (input_queue st) > 10000 ->
      forall t1 t2,
        qsize (input_queue (before_next t1 st)) <= 10000 ->
        exists st' evs s,
          run_main [t1; t2] st = (st', Sleep 1 :: GetWorkload :: evs, s))
  /\ (qsize (input_queue st) <= 10000 ->
      forall item items others,
        main (Ok (item :: items)) others st
        = (mkState (input_queue (others st) ++ item :: items) (output_queue (others st)),
           [GetWorkload], Running))
  /\ (qsize (input_queue st) > 10000 ->
      forall t1 t2 item items,
        qsize (input_queue (before_next t1 st)) <= 10000 ->
        page t2 = Ok (item :: items) ->
        let met := during_fetch t2 (before_next t1 st) in
        run_main [t1; t2] st
        = (before_next t2 (mkState (input_queue met ++ item :: items) (output_queue met)),
           [Sleep 1; GetWorkload], Running))
  /\ (qsize (input_queue st) <= 10000 ->
      forall workload others,
        qsize (input_queue (others st)) <= qsize (input_queue st) ->
        qsize (input_queue (fst (fst (main (Ok workload) others st))))
        <= 10000 + Z.of_nat (List.length workload)).
Proof.
  assert (Hfetch : forall st0, qsize (input_queue st0) <= 10000 ->
            forall workload others,
            exists st' evs s, main workload others st0 = (st', GetWorkload :: evs, s)).
  { intros st0 H workload others. rewrite (main_fetches _ _ _ H).
    destruct workload as [[|item items] | e]; [| eauto | eauto].
    destruct (_ && _); eauto. }
  split; [| split; [| split; [| split; [| split]]]].
  - intros H workload others. now apply main_waits.
  - apply Hfetch.
  - intros H t1 t2 Hdrop. cbn [run_main]. rewrite (main_waits _ _ _ H).
    destruct (Hfetch _ Hdrop (page t2) (during_fetch t2)) as (st' & evs & s & Hm).
    rewrite Hm. destruct s; simpl; eauto.
  - intros H item items others. now rewrite (main_fetches _ _ _ H).
  - intros H t1 t2 item items Hdrop Hpage met. cbn [run_main].
    rewrite (main_waits _ _ _ H), Hpage, (main_fetches _ _ _ Hdrop). reflexivity.
  - intros H workload others Hothers. rewrite (main_fetches _ _ _ H).
    destruct workload as [|item items].
    + destruct (_ && _); cbn [fst List.length]; lia.
    + cbn [fst input_queue]. unfold qsize in *. rewrite length_app. lia.
Qed.

Lemma C7_backpressure_witness :
  main (Ok [fresh_item]) keep full = (full, [Sleep 1], Running)
  /\ (exists st' evs s, main (Ok [fresh_item]) keep drained = (st', GetWorkload :: evs, s))
  /\ (exists st' evs s,
        run_main [mkTurn (Ok [fresh_item]) keep drain; mkTurn (Ok [fresh_item]) keep keep] full
        = (st', Sleep 1 :: GetWorkload :: evs, s))
  /\ main (Ok three_fresh) take_one two_queued
     = (mkState (fresh_item :: three_fresh) [], [GetWorkload], Running)
  /\ run_main [mkTurn (Ok [fresh_item]) keep drain; mkTurn (Ok three_fresh) keep keep] full
     = (mkState three_fresh [], [Sleep 1; GetWorkload], Running)
  /\ qsize (input_queue (fst (fst (main (Ok three_fresh) take_one two_queued))))
     <= 10000 + Z.of_nat (List.length three_fresh).
Proof.
  split; [| split; [| split; [| split; [| split]]]].
  - apply (proj1 (C7_backpressure full)). reflexivity.
  - apply (proj1 (proj2 (C7_backpressure drained))). vm_compute. discriminate.
  - apply (proj1 (proj2 (proj2 (C7_backpressure full)))).
    + reflexivity.
    + vm_compute. discriminate.
  - destruct (C7_backpressure two_queued) as (_ & _ & _ & H & _).
    apply (H ltac:(vm_compute; discriminate) _ _ take_one).
  - destruct (C7_backpressure full) as (_ & _ & _ & _ & H & _).
    apply (H eq_refl (mkTurn (Ok [fresh_item]) keep drain)
             (mkTurn (Ok three_fresh) keep keep) _ _).
    + vm_compute. discriminate.
    + reflexivity.
  - destruct (C7_backpressure two_queued) as (_ & _ & _ & _ & _ & H).
    apply H; vm_compute; discriminate.
Defined.

(** C7 as the spec words it fails inside a page: with 10,000 items queued
    the producer asks for a page, and the second item of the page is put on
    a queue of 10,001. *)
Lemma C7_counterexample :
  main (Ok [hello_item; plain_ipfs_item]) keep at_mark
  = (mkState (put (put (input_queue at_mark) hello_item) plain_ipfs_item) [],
     [GetWorkload], Running)
  /\ qsize (put (input_queue at_mark) hello_item) > 10000.
Proof.
  split.
  - rewrite main_fetches by (vm_compute; discriminate).
    unfold keep, put. cbn [output_queue at_mark]. now rewrite <- app_assoc.
  - vm_compute. reflexivity.
Qed.

(** C8.  An iteration of the producer returns exactly when it asked for a
    page, the page is empty, and both queues are empty when the page
    arrives.  When the page is empty and one of the queues is not, it
    sleeps one second and goes on. *)
Theorem C8_halts_when_drained (workload : result (list WorkloadItem))
    (others : State -> State) (st : State) :
  (forall st' evs,
      main workload others st = (st', evs, Returned)
      <-> qsize (input_queue st) <= 10000 /\ workload = Ok []
          /\ output_queue (others st) = [] /\ input_queue (others st) = []
          /\ st' = others st /\ evs = [GetWorkload])
  /\ (qsize (input_queue st) <= 10000 -> workload = Ok [] ->
      output_queue (others st) <> [] \/ input_queue (others st) <> [] ->
      main workload others st = (others st, [GetWorkload; Sleep 1], Running)).
Proof.
  split.
  - intros st' evs. split.
    + intros Hm. destruct (Z_le_gt_dec (qsize (input_queue st)) 10000) as [Hle | Hgt].
      * rewrite (main_fetches _ _ _ Hle) in Hm.
        destruct workload as [[|item items] | e]; try discriminate.
        destruct (qsize (output_queue (others st)) =? 0) eqn:Hout; [| discriminate].
        destruct (qsize (input_queue (others st)) =? 0) eqn:Hin; [| discriminate].
        apply qsize_zero in Hout, Hin. simpl in Hm. injection Hm as <- <-. auto 10.
      * rewrite (main_waits _ _ _ Hgt) in Hm. discriminate.
    + intros (Hle & -> & Hout & Hin & -> & ->).
      rewrite (main_fetches _ _ _ Hle), Hout, Hin. reflexivity.
  - intros Hle -> Hq. rewrite (main_fetches _ _ _ Hle).
    destruct (qsize (output_queue (others st)) =? 0) eqn:Hout;
      [| reflexivity].
    destruct (qsize (input_queue (others st)) =? 0) eqn:Hin; [| reflexivity].
    apply qsize_zero in Hout, Hin. destruct Hq; congruence.
Qed.

Lemma C8_halts_when_drained_witness :
  main (Ok []) keep drained = (drained, [GetWorkload], Returned)
  /\ main (Ok []) deliver drained = (deliver drained, [GetWorkload; Sleep 1], Running).
Proof.
  split.
  - apply (proj1 (C8_halts_when_drained (Ok []) keep drained)).
    repeat split. vm_compute. discriminate.
  - apply (proj2 (C8_halts_when_drained (Ok []) deliver drained)).
    + vm_compute. discriminate.
    + reflexivity.
    + left. discriminate.
Defined.

(** ** Configuration *)

(** C9, as the code has it.  [API_URI], [API_KEY] and [IPFS_GATEWAY] are
    mandatory: when one of them is absent or empty, loading the module
    raises, so the pipeline never starts.  [MAX_REQUESTS] is not: absent or
    empty it is taken to be 200, and with the other three set the module
    loads. *)
Theorem C9_mandatory_configuration (int : string -> result Z)
    (environ : gmap string string) :
  (is_set (environ !! "API_URI") = false
   \/ is_set (environ !! "API_KEY") = false
   \/ is_set (environ !! "IPFS_GATEWAY") = false ->
   exists e, module_init int environ = Raise e)
  /\ (is_set (environ !! "MAX_REQUESTS") = false ->
      (is_set (environ !! "API_URI") = false ->
       module_init int environ = Raise (RuntimeError "No API_URI set!"))
      /\ (is_set (environ !! "API_URI") = true ->
          is_set (environ !! "API_KEY") = false ->
          module_init int environ = Raise (RuntimeError "No API_KEY set!"))
      /\ (is_set (environ !! "API_URI") = true ->
          is_set (environ !! "API_KEY") = true ->
          is_set (environ !! "IPFS_GATEWAY") = false ->
          module_init int environ = Raise (RuntimeError "No IPFS_GATEWAY set!"))
      /\ (forall key uri gateway,
            environ !! "API_KEY" = Some key -> key <> "" ->
            environ !! "API_URI" = Some uri -> uri <> "" ->
            environ !! "IPFS_GATEWAY" = Some gateway -> gateway <> "" ->
            module_init int environ = Ok (mkConfig key uri gateway 200))).
Proof.
  split.
  - intros Hunset. unfold module_init.
    destruct (match environ !! "MAX_REQUESTS" with
              | Some s => if Str.truthy s then int s else Ok 200
              | None => Ok 200
              end) as [n | e]; [| eauto].
    destruct (is_set (environ !! "API_URI")); simpl; [| eauto].
    destruct (is_set (environ !! "API_KEY")); simpl; [| eauto].
    destruct (is_set (environ !! "IPFS_GATEWAY")); simpl; [| eauto].
    destruct Hunset as [H | [H | H]]; discriminate.
  - intros Hmax.
    assert (Hdefault : match environ !! "MAX_REQUESTS" with
                       | Some s => if Str.truthy s then int s else Ok 200
                       | None => Ok 200
                       end = Ok 200).
    { unfold is_set in Hmax. destruct (environ !! "MAX_REQUESTS") as [s|]; [| reflexivity].
      now rewrite Hmax. }
    unfold module_init. rewrite Hdefault. repeat split.
    + intros ->. reflexivity.
    + intros -> ->. reflexivity.
    + intros -> -> ->. reflexivity.
    + intros key uri gateway Hk Hkne Hu Hune Hg Hgne.
      rewrite Hk, Hu, Hg. destruct key, uri, gateway; try congruence. reflexivity.
Qed.

Example module_init_reads_max_requests :
  module_init Sample.int (<["MAX_REQUESTS" := "50"]> three_set)
  = Ok (mkConfig "secret" "https://api.example" "https://gw/ipfs" 50).
Proof. vm_compute. reflexivity. Qed.

Lemma C9_mandatory_configuration_witness :
  (exists e, module_init Sample.int no_gateway = Raise e)
  /\ module_init Sample.int (delete "API_KEY" three_set)
     = Raise (RuntimeError "No API_KEY set!")
  /\ module_init Sample.int three_set
     = Ok (mkConfig "secret" "https://api.example" "https://gw/ipfs" 200).
Proof.
  split; [| split].
  - apply (proj1 (C9_mandatory_configuration Sample.int no_gateway)).
    right; right. vm_compute. reflexivity.
  - destruct (proj2 (C9_mandatory_configuration Sample.int (delete "API_KEY" three_set)))
      as (_ & H & _); [vm_compute; reflexivity |].
    apply H; vm_compute; reflexivity.
  - destruct (proj2 (C9_mandatory_configuration Sample.int three_set))
      as (_ & _ & _ & H); [vm_compute; reflexivity |].
    apply H; try discriminate; vm_compute; reflexivity.
Defined.

(** C9 as the spec words it fails for the fourth value: without
    [MAX_REQUESTS] the module loads, with 200 in its place. *)
Lemma C9_counterexample :
  three_set !! "MAX_REQUESTS" = None
  /\ module_init Sample.int three_set
     = Ok (mkConfig "secret" "https://api.example" "https://gw/ipfs" 200).
Proof. split; vm_compute; reflexivity. Qed.

(** * Further properties of the program *)

(** ** What a worker does to an item *)

Lemma resolve_fields (E : Env) (item : WorkloadItem) :
  contract_hash (fst (resolve E item)) = contract_hash item
  /\ token_id (fst (resolve E item)) = token_id item.
Proof.
  unfold resolve.
  destruct (truthy_data (try_get_data E (token_uri item))); [split; reflexivity |].
  destruct (request_metadata E _) as [[code data] evs].
  destruct (negb (truthy_code code) && negb (truthy_data data)); split; reflexivity.
Qed.

(** X1.  Resolving an item changes its status code and payload only: the
    contract hash, the token id and the token URI are the ones it came
    with; the URI stays the original one also when the request went to the
    gateway. *)
Theorem resolve_keeps_identity (E : Env) (item : WorkloadItem) :
  contract_hash (fst (resolve E item)) = contract_hash item
  /\ token_id (fst (resolve E item)) = token_id item
  /\ token_uri (fst (resolve E item)) = token_uri item.
Proof.
  unfold resolve.
  destruct (truthy_data (try_get_data E (token_uri item))); [repeat split |].
  destruct (request_metadata E _) as [[code data] evs].
  destruct (negb (truthy_code code) && negb (truthy_data data)); repeat split.
Qed.

(** X2.  Resolving an item makes at most one request, and only for the
    rewritten URI: none when the item is resolved inline, none when the
    rewritten URI has one of the two rejected schemes, one otherwise. *)
Theorem resolve_requests (E : Env) (item : WorkloadItem) :
  let rewritten :=
    replace_ipfs_gateway (IPFS_GATEWAY (constants E)) (token_uri item) in
  let rejected :=
    Str.startswith (Str.lower rewritten) "ipfs://"
    || Str.startswith (Str.lower rewritten) "ar://" in
  snd (resolve E item)
  = if truthy_data (try_get_data E (token_uri item)) || rejected
    then [] else [Get rewritten].
Proof.
  intros rewritten rejected. unfold resolve.
  destruct (truthy_data (try_get_data E (token_uri item))); [reflexivity |].
  fold rewritten. subst rejected. unfold request_metadata.
  destruct (Str.startswith (Str.lower rewritten) "ipfs://"); [reflexivity |].
  destruct (Str.startswith (Str.lower rewritten) "ar://"); [reflexivity |].
  cbn [orb].
  destruct (session_get E rewritten) as [response | e].
  - destruct (response_json response) as [body | e].
    + simpl. destruct (_ && _); reflexivity.
    + destruct e; reflexivity.
  - destruct e; reflexivity.
Qed.

(** X3.  The record [to_dict] makes of a resolved item names the contract
    and the token the item came with and carries an integer code and a
    string payload: no [null] goes to the sink. *)
Theorem to_dict_of_resolved (E : Env) (item : WorkloadItem) :
  exists code payload,
    to_dict (fst (resolve E item))
    = JDict [("ContractHash", JStr (contract_hash item));
             ("TokenId", JStr (token_id item));
             ("Code", JInt code);
             ("Metadata", JStr payload)].
Proof.
  destruct (resolve_sets_both E item) as (code & payload & Hc & Hm).
  destruct (resolve_fields E item) as (Hh & Hi).
  exists code, payload. unfold to_dict. now rewrite Hc, Hm, Hh, Hi.
Qed.

(** One iteration of a worker that is not idle, with nothing else running. *)
Lemma worker_alone (E : Env) (item : WorkloadItem) (rest out : list WorkloadItem) :
  worker E (fun st => st) (mkState (item :: rest) out)
  = (mkState rest (out ++ [fst (resolve E item)]), snd (resolve E item), Running).
Proof.
  unfold worker. cbn [input_queue output_queue].
  replace (qsize (item :: rest) =? 0) with false
    by (symmetry; apply Z.eqb_neq; unfold qsize; simpl; lia).
  destruct (resolve E item) as [item' evs]. reflexivity.
Qed.

Lemma run_worker_idle (E : Env) (k : nat) (out : list WorkloadItem) :
  run_worker E k (mkState [] out) = (mkState [] out, repeat (Sleep 1) k, Running).
Proof.
  induction k as [|k IH]; [reflexivity |].
  cbn [run_worker].
  change (worker E (fun st => st) (mkState [] out))
    with (mkState [] out, [Sleep 1], Running).
  cbv beta iota. now rewrite IH.
Qed.

(** X4.  One worker left alone with the input queue resolves the items in
    the order they were queued: after as many iterations as there are
    items, the input queue is empty and the output queue has grown by the
    resolved items, first in first out, with their requests made in that
    order; every further iteration is a sleep of one second. *)
Theorem run_worker_drains (E : Env) (st : State) (k : nat) :
  run_worker E (List.length (input_queue st) + k) st
  = (mkState [] (output_queue st ++ map (fun item => fst (resolve E item)) (input_queue st)),
     flat_map (fun item => snd (resolve E item)) (input_queue st) ++ repeat (Sleep 1) k,
     Running).
Proof.
  destruct st as [q out]. cbn [input_queue output_queue].
  revert out. induction q as [|item rest IH]; intros out.
  - cbn [List.length Nat.add map flat_map app]. rewrite app_nil_r. apply run_worker_idle.
  - cbn [List.length Nat.add run_worker]. rewrite worker_alone, IH.
    cbn [map flat_map]. now rewrite <- !app_assoc.
Qed.

(** ** The queued results can always be printed *)

Lemma prints_progress_line (item : WorkloadItem) :
  prints item = true <-> exists line, progress_line item = Ok line.
Proof.
  unfold prints, progress_line.
  destruct (metadata item), (response_code item); split; eauto;
    try discriminate; intros [line H]; discriminate.
Qed.


(** ** The batcher loses and repeats nothing *)

(** X6.  Over any number of iterations of [save_worker] on printable
    results, the batches handed to the sink, one after the other, followed
    by what is still queued, are the queue the run started with: nothing is
    dropped, repeated or reordered; every batch has between 1 and 100
    items; the input queue is not touched. *)
Theorem run_save_worker_conserves (E : Env) (n : nat) (st : State) :
  queue_ok st ->
  let '(st', evs, s) := run_save_worker E n st in
  concat (sink_calls evs) ++ output_queue st' = output_queue st
  /\ input_queue st' = input_queue st
  /\ Forall (fun batch => (1 <= List.length batch <= 100)%nat) (sink_calls evs).
Proof.
  revert st. induction n as [|n IH]; intros st Hok.
  - cbn [run_save_worker sink_calls concat app]. repeat split. constructor.
  - cbn [run_save_worker].
    destruct (save_worker_iteration E st) as (evs1 & s1 & Hrun & Hcalls & Hzero & Hsome).
    rewrite Hrun.
    assert (Hstep : concat (sink_calls evs1) ++ drop (batch_size st) (output_queue st)
                    = output_queue st
                    /\ Forall (fun batch => (1 <= List.length batch <= 100)%nat)
                         (sink_calls evs1)).
    { destruct (batch_size st) as [|b] eqn:Hb.
      - rewrite (Hzero eq_refl). split; [apply drop_0 | constructor].
      - rewrite (Hsome ltac:(discriminate) Hok). cbn [concat]. rewrite app_nil_r.
        split; [apply take_drop |]. constructor; [| constructor].
        rewrite length_take. rewrite batch_size_min in Hb. lia. }
    destruct Hstep as [Hcat Hsizes].
    set (st1 := mkState (input_queue st) (drop (batch_size st) (output_queue st))).
    assert (Hok1 : queue_ok st1) by (unfold queue_ok; cbn; now apply Forall_drop).
    destruct s1; [| repeat split; assumption | repeat split; assumption].
    specialize (IH st1 Hok1).
    destruct (run_save_worker E n st1) as [[st2 evs2] s2].
    destruct IH as (IHcat & IHin & IHsizes). cbn [output_queue input_queue] in *.
    rewrite sink_calls_app, concat_app. repeat split.
    + now rewrite <- app_assoc, IHcat.
    + exact IHin.
    + apply Forall_app. now split.
Qed.


Lemma run_save_worker_conserves_witness :
  let '(st', evs, s) := run_save_worker (Sample.env "https://gw/ipfs") 2 backlog in
  concat (sink_calls evs) ++ output_queue st' = output_queue backlog
  /\ input_queue st' = input_queue backlog
  /\ Forall (fun batch => (1 <= List.length batch <= 100)%nat) (sink_calls evs).
Proof.
  apply (run_save_worker_conserves (Sample.env "https://gw/ipfs") 2 backlog).
  unfold queue_ok. change (output_queue backlog) with (repeat resolved_item 250).
  generalize 250%nat. intros k. induction k; constructor; [reflexivity | assumption].
Defined.

(** ** How far the input queue can grow *)

(** X8.  An iteration of the producer appends the whole page, in order, to
    the input queue as the other tasks left it, and only when it found at
    most 10,000 items queued.  So when the other tasks only take from the
    input queue, its depth after the iteration is at most the larger of the
    depth before and 10,000 plus the length of the page. *)
Theorem main_depth_bound (workload : list WorkloadItem) (others : State -> State)
    (st : State) :
  qsize (input_queue (others st)) <= qsize (input_queue st) ->
  let st' := fst (fst (main (Ok workload) others st)) in
  (qsize (input_queue st) > 10000 -> st' = st)
  /\ (qsize (input_queue st) <= 10000 ->
      input_queue st' = input_queue (others st) ++ workload
      /\ output_queue st' = output_queue (others st))
  /\ qsize (input_queue st')
     <= Z.max (qsize (input_queue st)) (10000 + Z.of_nat (List.length workload)).
Proof.
  intros Hothers st'. subst st'.
  destruct (Z_le_gt_dec (qsize (input_queue st)) 10000) as [Hle | Hgt].
  - rewrite (main_fetches _ _ _ Hle).
    assert (Hst : fst (fst (match workload with
                   | [] => if (qsize (output_queue (others st)) =? 0)
                              && (qsize (input_queue (others st)) =? 0)
                           then (others st, [GetWorkload], Returned)
                           else (others st, [GetWorkload; Sleep 1], Running)
                   | (_ :: _) as items =>
                       (mkState (input_queue (others st) ++ items)
                                (output_queue (others st)), [GetWorkload], Running)
                   end))
                = mkState (input_queue (others st) ++ workload) (output_queue (others st))).
    { destruct workload as [|item items]; [| reflexivity].
      rewrite app_nil_r. destruct (_ && _); destruct (others st); reflexivity. }
    rewrite Hst. cbn [input_queue output_queue].
    split; [lia |]. split; [auto |].
    unfold qsize in *. rewrite length_app. lia.
  - rewrite (main_waits _ _ _ Hgt). cbn [fst].
    split; [reflexivity |]. split; [lia |]. lia.
Qed.

Lemma main_depth_bound_witness :
  let st' := fst (fst (main (Ok three_fresh) take_one two_queued)) in
  (qsize (input_queue two_queued) > 10000 -> st' = two_queued)
  /\ (qsize (input_queue two_queued) <= 10000 ->
      input_queue st' = input_queue (take_one two_queued) ++ three_fresh
      /\ output_queue st' = output_queue (take_one two_queued))
  /\ qsize (input_queue st')
     <= Z.max (qsize (input_queue two_queued)) (10000 + Z.of_nat (List.length three_fresh)).
Proof.
  apply (main_depth_bound three_fresh take_one two_queued).
  vm_compute. discriminate.
Defined.

Example main_appends_page :
  main (Ok three_fresh) take_one two_queued
  = (mkState (fresh_item :: three_fresh) [], [GetWorkload], Running).
Proof. reflexivity. Qed.

(** ** The progress line *)

Module FmtFacts.

Lemma length_app (a b : string) :
  String.length (a +:+ b) = (String.length a + String.length b)%nat.
Proof.
  induction a as [|x a IH]; [reflexivity |].
  rewrite StrFacts.app_cons. simpl. now rewrite IH.
Qed.

Lemma length_spaces (n : nat) : String.length (Fmt.spaces n) = n.
Proof. induction n as [|n IH]; simpl; [reflexivity | now rewrite IH]. Qed.

Lemma length_slice_to (i : nat) (s : string) :
  String.length (Str.slice_to i s) = Nat.min i (String.length s).
Proof.
  revert s; induction i as [|i IH]; intros [|c t]; simpl; try reflexivity.
  now rewrite IH.
Qed.

Lemma length_ljust (w : nat) (s : string) :
  String.length (Fmt.ljust w s) = Nat.max w (String.length s).
Proof. unfold Fmt.ljust. rewrite length_app, length_spaces. lia. Qed.

Lemma length_rjust (w : nat) (s : string) :
  String.length (Fmt.rjust w s) = Nat.max w (String.length s).
Proof. unfold Fmt.rjust. rewrite length_app, length_spaces. lia. Qed.

End FmtFacts.

Example progress_line_short :
  progress_line resolved_item
  = Ok "[https://meta.example/1.json     ]: 200 - {}".
Proof. reflexivity. Qed.

Example progress_line_long :
  progress_line long_item = Ok "[https://meta.example/ipfs/QmY...]: 200 - {}".
Proof. reflexivity. Qed.

(** X9.  For an item with code and payload set, the progress line is
    [[<uri>]: <code> - <payload>] where the URI column is exactly 32
    characters wide (the URI padded with spaces, or its first 29 characters
    and three dots when it is longer than 32), the code is written in
    decimal, padded with spaces on the left to at least 3 characters, and
    the payload is shown whole up to 160 characters, else
    as its first 157 characters and three dots.  Without a code or a
    payload, printing raises. *)
Theorem progress_line_columns (item : WorkloadItem) :
  (forall code text,
      response_code item = Some code -> metadata item = Some text ->
      exists column number shown,
        progress_line item
        = Ok ("[" +:+ column +:+ "]: " +:+ number +:+ " - " +:+ shown)
        /\ String.length column = 32%nat
        /\ column
           = (if (32 <? String.length (token_uri item))%nat
              then Str.slice_to 29 (token_uri item) +:+ "..."
              else token_uri item +:+ Fmt.spaces (32 - String.length (token_uri item)))
        /\ number
           = Fmt.spaces (3 - String.length (Dumps.int_repr code)) +:+ Dumps.int_repr code
        /\ (3 <= String.length number)%nat
        /\ (String.length shown <= 160)%nat
        /\ shown
           = (if (160 <? String.length text)%nat
              then Str.slice_to 157 text +:+ "..." else text))
  /\ (response_code item = None \/ metadata item = None ->
      progress_line item = Raise TypeError).
Proof.
  split.
  - intros code text Hcode Htext. unfold progress_line. rewrite Hcode, Htext.
    exists (Fmt.ljust 32 (shown_uri item)), (Fmt.rjust 3 (Dumps.int_repr code)),
      (shown_metadata text).
    split; [reflexivity |].
    assert (Hcol : Fmt.ljust 32 (shown_uri item)
                   = if (32 <? String.length (token_uri item))%nat
                     then Str.slice_to 29 (token_uri item) +:+ "..."
                     else token_uri item
                          +:+ Fmt.spaces (32 - String.length (token_uri item))).
    { unfold shown_uri, Fmt.ljust.
      destruct (32 <? String.length (token_uri item))%nat eqn:Hlong; [| reflexivity].
      apply Nat.ltb_lt in Hlong.
      rewrite FmtFacts.length_app, FmtFacts.length_slice_to.
      replace (32 - (Nat.min 29 (String.length (token_uri item)) + String.length "..."))%nat
        with 0%nat by (cbn [String.length]; lia).
      cbn [Fmt.spaces]. now rewrite StrFacts.app_nil_r. }
    split; [| split; [exact Hcol |]].
    + rewrite Hcol.
      destruct (32 <? String.length (token_uri item))%nat eqn:Hlong.
      * apply Nat.ltb_lt in Hlong.
        rewrite FmtFacts.length_app, FmtFacts.length_slice_to. cbn [String.length]. lia.
      * apply Nat.ltb_ge in Hlong.
        rewrite FmtFacts.length_app, FmtFacts.length_spaces. lia.
    + split; [reflexivity |]. split; [rewrite FmtFacts.length_rjust; lia |].
      unfold shown_metadata.
      destruct (160 <? String.length text)%nat eqn:Hlong; (split; [| reflexivity]).
      * apply Nat.ltb_lt in Hlong.
        rewrite FmtFacts.length_app, FmtFacts.length_slice_to. cbn [String.length]. lia.
      * now apply Nat.ltb_ge in Hlong.
  - unfold progress_line. intros [H | H]; rewrite H; [| reflexivity].
    destruct (metadata item); reflexivity.
Qed.

Lemma progress_line_columns_witness :
  exists column number shown,
    progress_line long_item
    = Ok ("[" +:+ column +:+ "]: " +:+ number +:+ " - " +:+ shown)
    /\ String.length column = 32%nat
    /\ column
       = (if (32 <? String.length (token_uri long_item))%nat
          then Str.slice_to 29 (token_uri long_item) +:+ "..."
          else token_uri long_item
               +:+ Fmt.spaces (32 - String.length (token_uri long_item)))
    /\ number = Fmt.spaces (3 - String.length (Dumps.int_repr 200)) +:+ Dumps.int_repr 200
    /\ (3 <= String.length number)%nat
    /\ (String.length shown <= 160)%nat
    /\ shown
       = (if (160 <? String.length "{}")%nat then Str.slice_to 157 "{}" +:+ "..." else "{}").
Proof.
  apply (proj1 (progress_line_columns long_item) 200 "{}"); reflexivity.
Defined.

(** ** Rewriting twice *)

Module RewriteFacts.

Lemma times_class_within (p : ascii -> bool) (k k' : string -> bool) (r : string)
    (n : nat) (a : string) :
  p "/"%char = false ->
  (forall a', k (a' +:+ String "/" r) = true -> k' a' = true) ->
  Re.times n (Re.rmatch (Re.Class p)) (a +:+ String "/" r) k = true ->
  Re.times n (Re.rmatch (Re.Class p)) a k' = true.
Proof.
  intros Hslash Hk. revert a. induction n as [|n IH]; intros a; simpl.
  - apply Hk.
  - destruct a as [|c a].
    + rewrite StrFacts.app_nil_l. simpl. now rewrite Hslash.
    + rewrite StrFacts.app_cons. simpl. destruct (p c); [apply IH | discriminate].
Qed.

Lemma closing_within (a r : string) :
  Re.rmatch Segment.closing (a +:+ String "/" r) (fun _ => true) = true ->
  Re.rmatch Segment.closing a (fun _ => true) = true.
Proof.
  rewrite !SegmentFacts.closing_spec. unfold Segment.closes.
  destruct a as [|c a]; [now left |].
  rewrite StrFacts.app_cons. intros [H | [H | [t H]]].
  - discriminate.
  - injection H as _ H. destruct a; discriminate.
  - rewrite StrFacts.app_cons in H. injection H as -> _.
    right; right. now exists a.
Qed.

(** A match that starts before a slash ends before it or at it. *)
Lemma match_here_within (a r : string) :
  a <> "" ->
  Re.match_here cid_pattern (a +:+ String "/" r) = true ->
  Re.match_here cid_pattern a = true.
Proof.
  intros Hne. destruct a as [|c a]; [congruence |].
  unfold Re.match_here, cid_pattern.
  change (Re.Times 1 (Re.Alt (Re.Lit "/") Re.Dollar)) with Segment.closing.
  rewrite StrFacts.app_cons, !ReFacts.rmatch_cat, !ReFacts.rmatch_lit.
  destruct (Ascii.eqb "/" c); [| discriminate].
  rewrite !ReFacts.rmatch_cat, !ReFacts.rmatch_alt, !ReFacts.rmatch_times.
  rewrite !orb_true_iff.
  intros [H | H]; [left | right];
    (eapply times_class_within; [reflexivity | | exact H]);
    intros a'; apply closing_within.
Qed.

Lemma search_from_past (gateway suf : string) (i : nat) :
  (forall pre t, gateway = pre +:+ t -> t <> "" ->
                 Re.match_here cid_pattern (t +:+ suf) = false) ->
  Re.match_here cid_pattern suf = true ->
  Re.search_from cid_pattern i (gateway +:+ suf)
  = Some (i + String.length gateway)%nat.
Proof.
  revert i. induction gateway as [|c g IH]; intros i Hbefore Hsuf.
  - rewrite StrFacts.app_nil_l. simpl String.length. rewrite Nat.add_0_r.
    destruct suf; cbn [Re.search_from]; now rewrite Hsuf.
  - rewrite StrFacts.app_cons. cbn [Re.search_from].
    rewrite <- StrFacts.app_cons.
    rewrite (Hbefore "" (String c g) eq_refl) by discriminate.
    rewrite IH; [f_equal; simpl; lia | | exact Hsuf].
    intros pre t -> Ht. apply (Hbefore (String c pre) t); [reflexivity | exact Ht].
Qed.

End RewriteFacts.

(** X10.  When the gateway prefix has no content-address segment of its
    own, rewriting is idempotent: a rewritten URI is its own rewriting. *)
Theorem replace_ipfs_gateway_idempotent (gateway uri : string) :
  ~ Segment.has_segment gateway ->
  replace_ipfs_gateway gateway (replace_ipfs_gateway gateway uri)
  = replace_ipfs_gateway gateway uri.
Proof.
  intros Hgw. unfold replace_ipfs_gateway at 2 3.
  destruct (Re.search cid_pattern uri) as [start|] eqn:Hs.
  - unfold Re.search in Hs.
    apply SegmentFacts.search_from_some in Hs as (pre & suf & -> & -> & Hm & _).
    simpl. rewrite StrFacts.slice_from_app.
    assert (Hslash : exists r, suf = String "/" r).
    { apply SegmentFacts.match_here_spec in Hm as (seg & rest & -> & _).
      rewrite StrFacts.app_cons. eauto. }
    destruct Hslash as [r ->].
    unfold replace_ipfs_gateway, Re.search.
    rewrite RewriteFacts.search_from_past; [| | exact Hm].
    + simpl. now rewrite StrFacts.slice_from_app.
    + intros pre' t -> Ht.
      destruct (Re.match_here cid_pattern (t +:+ String "/" r)) eqn:Hin; [| reflexivity].
      exfalso. apply Hgw. exists pre', t. split; [reflexivity |].
      apply SegmentFacts.match_here_spec. now apply (RewriteFacts.match_here_within t r).
  - unfold replace_ipfs_gateway. now rewrite Hs.
Qed.

Lemma replace_ipfs_gateway_idempotent_witness :
  replace_ipfs_gateway "https://gw/ipfs" (replace_ipfs_gateway "https://gw/ipfs" example_uri)
  = replace_ipfs_gateway "https://gw/ipfs" example_uri.
Proof.
  apply replace_ipfs_gateway_idempotent.
  apply SegmentFacts.no_segment. reflexivity.
Defined.

(** ** A loaded configuration *)

(** X11.  Loading the module succeeds with a configuration exactly when
    [API_KEY], [API_URI] and [IPFS_GATEWAY] are set to the three strings of
    the configuration, none of them empty, and [MAX_REQUESTS] is either
    unset or empty, with 200 in the configuration, or a string that [int]
    converts to the number in the configuration. *)
Theorem module_init_ok (int : string -> result Z) (environ : gmap string string)
    (cfg : Config) :
  module_init int environ = Ok cfg
  <-> environ !! "API_KEY" = Some (API_KEY cfg) /\ API_KEY cfg <> ""
      /\ environ !! "API_URI" = Some (API_URI cfg) /\ API_URI cfg <> ""
      /\ environ !! "IPFS_GATEWAY" = Some (IPFS_GATEWAY cfg) /\ IPFS_GATEWAY cfg <> ""
      /\ ((is_set (environ !! "MAX_REQUESTS") = false /\ MAX_REQUESTS cfg = 200)
          \/ exists s, environ !! "MAX_REQUESTS" = Some s /\ s <> ""
                       /\ int s = Ok (MAX_REQUESTS cfg)).
Proof.
  unfold module_init. split.
  - intros H.
    assert (Hmax : exists n,
              match environ !! "MAX_REQUESTS" with
              | Some s => if Str.truthy s then int s else Ok 200
              | None => Ok 200
              end = Ok n
              /\ ((is_set (environ !! "MAX_REQUESTS") = false /\ n = 200)
                  \/ exists s, environ !! "MAX_REQUESTS" = Some s /\ s <> ""
                               /\ int s = Ok n)).
    { destruct (environ !! "MAX_REQUESTS") as [[|c s]|] eqn:Hm; simpl in *.
      - exists 200. split; [reflexivity | now left].
      - destruct (int (String c s)) as [n | e] eqn:Hint; [| discriminate].
        exists n. split; [reflexivity |]. right. exists (String c s).
        repeat split; [discriminate | exact Hint].
      - exists 200. split; [reflexivity | now left]. }
    destruct Hmax as (n & Hn & Hcases). rewrite Hn in H.
    destruct (environ !! "API_URI") as [[|cu u]|]; simpl in H; try discriminate.
    destruct (environ !! "API_KEY") as [[|ck k]|]; simpl in H; try discriminate.
    destruct (environ !! "IPFS_GATEWAY") as [[|cg g]|]; simpl in H; try discriminate.
    injection H as <-. simpl. repeat split; try discriminate. exact Hcases.
  - intros (Hk & Hkne & Hu & Hune & Hg & Hgne & Hmax).
    rewrite Hk, Hu, Hg.
    assert (Hn : match environ !! "MAX_REQUESTS" with
                 | Some s => if Str.truthy s then int s else Ok 200
                 | None => Ok 200
                 end = Ok (MAX_REQUESTS cfg)).
    { destruct Hmax as [[Hunset ->] | (s & Hs & Hsne & Hint)].
      - unfold is_set in Hunset. destruct (environ !! "MAX_REQUESTS"); [| reflexivity].
        now rewrite Hunset.
      - rewrite Hs. destruct s; [congruence | exact Hint]. }
    rewrite Hn. destruct cfg as [k u g n]. simpl in *.
    destruct k, u, g; try congruence. reflexivity.
Qed.

Lemma module_init_ok_witness :
  module_init Sample.int (<["MAX_REQUESTS" := "50"]> three_set)
  = Ok (mkConfig "secret" "https://api.example" "https://gw/ipfs" 50).
Proof.
  apply (proj2 (module_init_ok Sample.int (<["MAX_REQUESTS" := "50"]> three_set)
                  (mkConfig "secret" "https://api.example" "https://gw/ipfs" 50))).
  split; [vm_compute; reflexivity |]. split; [discriminate |].
  split; [vm_compute; reflexivity |]. split; [discriminate |].
  split; [vm_compute; reflexivity |]. split; [discriminate |].
  right. exists "50".
  split; [vm_compute; reflexivity |]. split; [discriminate | reflexivity].
Defined.
